(** * A note-taking service (Fiber + GORM + JWT): handlers, cache and tokens

    Shallow embedding of

      - [internal/models]   : [Note], [User], [Cache], [SaveNotes],
                              [LoadNotes], [ClearNotesCache], [ValidateUser]
      - [internal/handlers] : [NotesHandler], [getNotes], [fetchUserNotes],
                              [createNote], [updateNote], [deleteNote],
                              [getUserIDFromToken], [ValidateUser],
                              [ValidateLogin], [ValidateNote], [GetMe],
                              [Register], [Login], [AuthMiddleware],
                              [generateToken]
      - [internal/db]       : [GetUserByID], [LoadNotes], [InsertNote],
                              [SoftDeleteNoteInDB], [NoteExists],
                              [CheckExistingUser], [InsertNewUser],
                              [GetUserID], [GetUserByUsername]
      - [cmd/main.go]       : the routes and their middlewares

    The persistent store is a record of three tables (lists of rows); the
    tables exist, as after [AutoMigrate] of [User] and [Note] and
    [AutoMigrateCache].  The process-wide [notesCache] map is a [gmap].
    Handlers are state transformers returning the HTTP reply; the time of a
    request ([time.Now()]) is an argument.  Requests are served one at a
    time: the embedding is sequential, so the mutex around [notesCache]
    does not appear, and the database does not fail on its own (the errors
    that occur are those GORM and the constraints produce).

    Library behaviour the handlers rely on is written out in the modules
    [Gorm], [Validator] and [Jwt] below. *)

From Stdlib Require Import ZArith String List Bool Lia.
From stdpp Require Import base option gmap strings.
Import ListNotations.

Local Open Scope string_scope.
Local Open Scope list_scope.
Local Open Scope Z_scope.

(** ** Time

    [time.Time] is kept as seconds since the Unix epoch.  Go's zero
    [time.Time] (January 1, year 1, UTC) is the value GORM and the validator
    test with [IsZero]. *)

Definition Time := Z.
Definition zero_time : Time := -62135596800.
Definition IsZero (t : Time) : bool := t =? zero_time.
Definition day : Z := 24 * 3600.

(** ** Data model *)

(** [models.User] ([gorm.Model] flattened into its four fields). *)
Module User.
Record t := mk {
  ID : Z;
  CreatedAt : Time;
  UpdatedAt : Time;
  DeletedAt : option Time;
  Username : string;
  Password : string;
  FirstName : string;
  LastName : string;
  Email : string;
  PhoneNumber : string;
  City : string;
  Country : string;
  DateOfBirth : Time
}.

Definition set_ID (v : Z) (u : t) : t :=
  mk v (CreatedAt u) (UpdatedAt u) (DeletedAt u) (Username u) (Password u)
     (FirstName u) (LastName u) (Email u) (PhoneNumber u) (City u) (Country u)
     (DateOfBirth u).
Definition set_CreatedAt (v : Time) (u : t) : t :=
  mk (ID u) v (UpdatedAt u) (DeletedAt u) (Username u) (Password u)
     (FirstName u) (LastName u) (Email u) (PhoneNumber u) (City u) (Country u)
     (DateOfBirth u).
Definition set_UpdatedAt (v : Time) (u : t) : t :=
  mk (ID u) (CreatedAt u) v (DeletedAt u) (Username u) (Password u)
     (FirstName u) (LastName u) (Email u) (PhoneNumber u) (City u) (Country u)
     (DateOfBirth u).
Definition set_DeletedAt (v : option Time) (u : t) : t :=
  mk (ID u) (CreatedAt u) (UpdatedAt u) v (Username u) (Password u)
     (FirstName u) (LastName u) (Email u) (PhoneNumber u) (City u) (Country u)
     (DateOfBirth u).
Definition set_Password (v : string) (u : t) : t :=
  mk (ID u) (CreatedAt u) (UpdatedAt u) (DeletedAt u) (Username u) v
     (FirstName u) (LastName u) (Email u) (PhoneNumber u) (City u) (Country u)
     (DateOfBirth u).

(** The zero value [User{}]. *)
Definition zero : t :=
  mk 0 zero_time zero_time None "" "" "" "" "" "" "" "" zero_time.
End User.

(** [models.Note].  The struct embeds [gorm.Model] and declares a
    [DeletedAt *time.Time] of its own; both map to the column [deleted_at],
    and GORM binds the column to the shallower field, so a row has one
    [DeletedAt].  The soft-delete clauses still come from the embedded
    [gorm.DeletedAt] (see [Gorm]).

    The association field [User] is not a column.  What the validator and
    GORM do with a nested user object in a request body is outside this
    embedding; a [Note.t] is the row. *)
Module Note.
Record t := mk {
  ID : Z;
  CreatedAt : Time;
  UpdatedAt : Time;
  UserID : Z;
  Title : string;
  Body : string;
  DeletedAt : option Time
}.

Definition set_ID (v : Z) (n : t) : t :=
  mk v (CreatedAt n) (UpdatedAt n) (UserID n) (Title n) (Body n) (DeletedAt n).
Definition set_CreatedAt (v : Time) (n : t) : t :=
  mk (ID n) v (UpdatedAt n) (UserID n) (Title n) (Body n) (DeletedAt n).
Definition set_UpdatedAt (v : Time) (n : t) : t :=
  mk (ID n) (CreatedAt n) v (UserID n) (Title n) (Body n) (DeletedAt n).
Definition set_UserID (v : Z) (n : t) : t :=
  mk (ID n) (CreatedAt n) (UpdatedAt n) v (Title n) (Body n) (DeletedAt n).
Definition set_DeletedAt (v : option Time) (n : t) : t :=
  mk (ID n) (CreatedAt n) (UpdatedAt n) (UserID n) (Title n) (Body n) v.
End Note.

(** [models.Cache]: one persisted cache row.  [Notes] is a JSON text in the
    source; [json.Marshal] followed by [json.Unmarshal] gives back the same
    notes, so the row keeps the decoded list. *)
Module Cache.
Record t := mk {
  ID : Z;
  CreatedAt : Time;
  UpdatedAt : Time;
  DeletedAt : option Time;
  UserID : Z;
  Notes : list Note.t;
  ExpiryDate : Time
}.

Definition set_ID (v : Z) (c : t) : t :=
  mk v (CreatedAt c) (UpdatedAt c) (DeletedAt c) (UserID c) (Notes c) (ExpiryDate c).
Definition set_CreatedAt (v : Time) (c : t) : t :=
  mk (ID c) v (UpdatedAt c) (DeletedAt c) (UserID c) (Notes c) (ExpiryDate c).
Definition set_UpdatedAt (v : Time) (c : t) : t :=
  mk (ID c) (CreatedAt c) v (DeletedAt c) (UserID c) (Notes c) (ExpiryDate c).
Definition set_DeletedAt (v : option Time) (c : t) : t :=
  mk (ID c) (CreatedAt c) (UpdatedAt c) v (UserID c) (Notes c) (ExpiryDate c).
Definition set_Notes (v : list Note.t) (c : t) : t :=
  mk (ID c) (CreatedAt c) (UpdatedAt c) (DeletedAt c) (UserID c) v (ExpiryDate c).
Definition set_ExpiryDate (v : Time) (c : t) : t :=
  mk (ID c) (CreatedAt c) (UpdatedAt c) (DeletedAt c) (UserID c) (Notes c) v.

(** The zero value [Cache{}]. *)
Definition zero : t := mk 0 zero_time zero_time None 0 [] zero_time.
End Cache.

(** The database behind [*gorm.DB]. *)
Record DB := mkDB {
  users : list User.t;
  notes : list Note.t;
  caches : list Cache.t
}.

(** The state of the process: the database and the package-level variable
    [notesCache]. *)
Record World := mkWorld {
  database : DB;
  notesCache : gmap Z (list Note.t)
}.

Definition with_notes (l : list Note.t) (d : DB) : DB :=
  mkDB (users d) l (caches d).
Definition with_users (l : list User.t) (d : DB) : DB :=
  mkDB l (notes d) (caches d).
Definition with_caches (l : list Cache.t) (d : DB) : DB :=
  mkDB (users d) (notes d) l.

(** ** GORM ([gorm.io/gorm])

    The statements the handlers issue, over a table kept as a list of rows.
    A model is described by the [Schema] class: primary key, the three
    [gorm.Model] stamps, and the unique indexes of its [gorm] tags.  The
    database is opened with the default [gorm.Config] ([InitGormDB]), so
    [AllowGlobalUpdate] is off, and no statement calls [Unscoped].  The
    rules are those of GORM's documentation: "Soft Delete" for [visible],
    "Save All Fields" for [Save], "Block Global Delete" for [Delete]. *)

Module Gorm.

Inductive error :=
| ErrRecordNotFound
| ErrMissingWhereClause
| ErrConstraint.

Class Schema (A : Type) := {
  pk : A -> Z;
  set_pk : Z -> A -> A;
  created_at : A -> Time;
  set_created_at : Time -> A -> A;
  updated_at : A -> Time;
  set_updated_at : Time -> A -> A;
  deleted_at : A -> option Time;
  set_deleted_at : option Time -> A -> A;
  (* two rows that cannot coexist under a [unique] index *)
  clash : A -> A -> bool
}.

Definition is_null {A} (o : option A) : bool :=
  match o with None => true | Some _ => false end.

(** Auto-increment primary key.  No row is ever removed physically, so the
    next key is one more than the largest key of the table. *)
Definition next_id (ids : list Z) : Z := 1 + fold_right Z.max 0 ids.

(** Rows a statement sees.  A model that embeds [gorm.Model] has a
    [gorm.DeletedAt] field, and with it soft delete: every SELECT and
    UPDATE carries [deleted_at IS NULL] next to its own conditions. *)
Definition visible {A} `{Schema A} (cond : A -> bool) (r : A) : bool :=
  cond r && is_null (deleted_at r).

(** The row of least primary key. *)
Definition least {A} `{Schema A} (rows : list A) : option A :=
  fold_right
    (fun r acc =>
       match acc with
       | None => Some r
       | Some a => if pk r <=? pk a then Some r else Some a
       end)
    None rows.

(** [db.Where(cond).First(&v)]: the visible rows matching [cond], ordered
    by primary key, limit 1; [ErrRecordNotFound] when there is none. *)
Definition First {A} `{Schema A} (cond : A -> bool) (rows : list A)
  : error + A :=
  match least (List.filter (visible cond) rows) with
  | Some r => inr r
  | None => inl ErrRecordNotFound
  end.

(** [db.Where(cond).Find(&vs)]: all visible rows matching [cond]. *)
Definition Find {A} `{Schema A} (cond : A -> bool) (rows : list A) : list A :=
  List.filter (visible cond) rows.

(** What [db.Create(&v)] fills in before the INSERT: zero stamps are set to
    the current time and a zero primary key is assigned. *)
Definition fill {A} `{Schema A} (now : Time) (rows : list A) (v : A) : A :=
  let v := if IsZero (created_at v) then set_created_at now v else v in
  let v := if IsZero (updated_at v) then set_updated_at now v else v in
  if pk v =? 0 then set_pk (next_id (map pk rows)) v else v.

(** [db.Create(&v)]: the INSERT fails on a taken primary key or a unique
    index.  The value comes back with key and stamps filled in. *)
Definition Create {A} `{Schema A} (now : Time) (v : A) (rows : list A)
  : error + (A * list A) :=
  let v := fill now rows v in
  if existsb (fun r => (pk r =? pk v) || clash r v) rows
  then inl ErrConstraint
  else inr (v, rows ++ [v]).

(** [db.Save(&v)].  A zero primary key is a [Create].  Otherwise Save
    writes all fields of [v], zero values included ([created_at] too),
    with [updated_at] set to the current time, on the visible row of that
    key.  When no row was updated, GORM inserts with [ON CONFLICT DO
    UPDATE], which leaves [created_at] of an existing row alone; the
    handlers save only rows they have just found, so they do not get
    there. *)
Definition Save {A} `{Schema A} (now : Time) (v : A) (rows : list A)
  : error + (A * list A) :=
  if pk v =? 0 then Create now v rows
  else
    let v := set_updated_at now v in
    let hit r := visible (fun r => pk r =? pk v) r in
    if existsb hit rows
    then inr (v, map (fun r => if hit r then v else r) rows)
    else if existsb (fun r => pk r =? pk v) rows
    then inr (v, map (fun r => if pk r =? pk v
                              then set_created_at (created_at r) v else r) rows)
    else Create now v rows.

(** [db.Where(conds...).Delete(&v)] on a model with soft delete: an UPDATE
    setting [deleted_at] on the visible rows selected by the statement's
    conditions and by the primary key of [v] when it is not zero.  With
    neither, GORM does not run the statement and returns
    [ErrMissingWhereClause] (a delete of all rows needs a condition,
    [AllowGlobalUpdate] or raw SQL). *)
Definition Delete {A} `{Schema A} (conds : list (A -> bool)) (v : A)
    (now : Time) (rows : list A) : error + list A :=
  let where_ :=
    conds ++ (if pk v =? 0 then [] else [fun r => pk r =? pk v]) in
  match where_ with
  | [] => inl ErrMissingWhereClause
  | _ =>
      inr (map (fun r =>
                  if visible (fun r => forallb (fun c => c r) where_) r
                  then set_deleted_at (Some now) r else r) rows)
  end.

(** [db.Model(&T{}).Where(cond).Count(&n)]: the number of visible rows
    matching [cond]. *)
Definition Count {A} `{Schema A} (cond : A -> bool) (rows : list A) : Z :=
  Z.of_nat (length (List.filter (visible cond) rows)).

(** [db.Model(&T{}).Where(cond).Update(column, value)]: an UPDATE of the
    visible rows matching [cond] that sets the column ([set]) and, with it,
    [updated_at].  No row matching is no error. *)
Definition Update {A} `{Schema A} (cond : A -> bool) (set : A -> A)
    (now : Time) (rows : list A) : list A :=
  map (fun r => if visible cond r then set_updated_at now (set r) else r)
      rows.

End Gorm.

#[global] Instance Note_Schema : Gorm.Schema Note.t := {|
  Gorm.pk := Note.ID;
  Gorm.set_pk := Note.set_ID;
  Gorm.created_at := Note.CreatedAt;
  Gorm.set_created_at := Note.set_CreatedAt;
  Gorm.updated_at := Note.UpdatedAt;
  Gorm.set_updated_at := Note.set_UpdatedAt;
  Gorm.deleted_at := Note.DeletedAt;
  Gorm.set_deleted_at := Note.set_DeletedAt;
  Gorm.clash := fun _ _ => false
|}.

(** [Username] and [Email] carry [gorm:"unique"]. *)
#[global] Instance User_Schema : Gorm.Schema User.t := {|
  Gorm.pk := User.ID;
  Gorm.set_pk := User.set_ID;
  Gorm.created_at := User.CreatedAt;
  Gorm.set_created_at := User.set_CreatedAt;
  Gorm.updated_at := User.UpdatedAt;
  Gorm.set_updated_at := User.set_UpdatedAt;
  Gorm.deleted_at := User.DeletedAt;
  Gorm.set_deleted_at := User.set_DeletedAt;
  Gorm.clash := fun r v =>
    String.eqb (User.Username r) (User.Username v)
    || String.eqb (User.Email r) (User.Email v)
|}.

#[global] Instance Cache_Schema : Gorm.Schema Cache.t := {|
  Gorm.pk := Cache.ID;
  Gorm.set_pk := Cache.set_ID;
  Gorm.created_at := Cache.CreatedAt;
  Gorm.set_created_at := Cache.set_CreatedAt;
  Gorm.updated_at := Cache.UpdatedAt;
  Gorm.set_updated_at := Cache.set_UpdatedAt;
  Gorm.deleted_at := Cache.DeletedAt;
  Gorm.set_deleted_at := Cache.set_DeletedAt;
  Gorm.clash := fun _ _ => false
|}.

(** ** The cache layer ([models/cache.go]) *)

Inductive CacheError :=
| ErrLoadingCache (e : Gorm.error)
| ErrDatabase (e : Gorm.error).

(** [SaveNotes]: store in [notesCache], then create or update the user's
    cache row with an expiry one day ahead. *)
Definition SaveNotes (w : World) (now : Time) (userID : Z)
    (ns : list Note.t) : option CacheError * World :=
  let m := <[userID := ns]> (notesCache w) in
  let db := database w in
  let user_row c := Cache.UserID c =? userID in
  match Gorm.First user_row (caches db) with
  | inr cache =>
      let cache := Cache.set_Notes ns cache in
      let cache := Cache.set_ExpiryDate (now + day) cache in
      match Gorm.Save now cache (caches db) with
      | inr (_, rows) => (None, mkWorld (with_caches rows db) m)
      | inl e => (Some (ErrDatabase e), mkWorld db m)
      end
  | inl Gorm.ErrRecordNotFound =>
      let cache :=
        Cache.mk 0 zero_time zero_time None userID ns (now + day) in
      match Gorm.Create now cache (caches db) with
      | inr (_, rows) => (None, mkWorld (with_caches rows db) m)
      | inl e => (Some (ErrDatabase e), mkWorld db m)
      end
  | inl e => (Some (ErrDatabase e), mkWorld db m)
  end.

(** [LoadNotes] returns [(notes, err)]: the entry of [notesCache] when
    there is one; else the notes of the user's cache row, which are also
    copied into [notesCache]; [nil] and an error when there is no row. *)
Definition LoadNotes (w : World) (userID : Z)
  : (list Note.t * option CacheError) * World :=
  match notesCache w !! userID with
  | Some ns => ((ns, None), w)
  | None =>
      match Gorm.First (fun c => Cache.UserID c =? userID)
                       (caches (database w)) with
      | inl e => (([], Some (ErrLoadingCache e)), w)
      | inr cache =>
          let ns := Cache.Notes cache in
          ((ns, None),
           mkWorld (database w) (<[userID := ns]> (notesCache w)))
      end
  end.

(** [ClearNotesCache]: a fresh [notesCache], then [db.Delete(&Cache{})]. *)
Definition ClearNotesCache (w : World) (now : Time)
  : option Gorm.error * World :=
  let db := database w in
  match Gorm.Delete [] Cache.zero now (caches db) with
  | inl e => (Some e, mkWorld db ∅)
  | inr rows => (None, mkWorld (with_caches rows db) ∅)
  end.

(** ** JSON Web Tokens ([github.com/golang-jwt/jwt/v4])

    A token is kept in parsed form.  The HMAC is symbolic: a signature
    records the method, the key and the claims it was computed from, so it
    verifies under a key exactly when it was made with that key over those
    claims. *)

Module Jwt.

Inductive SigningMethod := HS256 | HS384 | HS512 | OtherMethod (name : string).

(** [jwt.MapClaims] with the two claims the service uses.  Numbers decode
    to [float64]; user ids are below 2^53, where the conversion is exact.
    [user_id = None] stands for a missing or non-numeric claim. *)
Record MapClaims := mkClaims {
  user_id : option Z;
  exp : option Time
}.

Record Signature := mkSig {
  sig_method : SigningMethod;
  sig_key : string;
  sig_claims : MapClaims
}.

Record Token := mkToken {
  Method : SigningMethod;
  Claims : MapClaims;
  Sig : Signature
}.

#[global] Instance SigningMethod_eq_dec : EqDecision SigningMethod.
Proof. solve_decision. Defined.
#[global] Instance MapClaims_eq_dec : EqDecision MapClaims.
Proof. solve_decision. Defined.
#[global] Instance Signature_eq_dec : EqDecision Signature.
Proof. solve_decision. Defined.

Definition is_hmac (m : SigningMethod) : bool :=
  match m with HS256 | HS384 | HS512 => true | OtherMethod _ => false end.

(** [jwt.NewWithClaims(m, claims)] then [token.SignedString(key)]. *)
Definition SignedString (m : SigningMethod) (claims : MapClaims)
    (key : string) : Token :=
  mkToken m claims (mkSig m key claims).

(** [MapClaims.Valid]: an [exp] claim that is present and not 0 must lie
    after the current time. *)
Definition unexpired (now : Time) (c : MapClaims) : bool :=
  match exp c with
  | None => true
  | Some e => (e =? 0) || (now <? e)
  end.

(** [jwt.Parse(tokenString, keyFunc)] with a key function returning the
    byte key [key]: no error and [token.Valid] exactly when the method is
    an HMAC one, the signature verifies under [key], and the claims are
    valid. *)
Definition Valid (key : string) (now : Time) (t : Token) : bool :=
  is_hmac (Method t)
  && bool_decide (Sig t = mkSig (Method t) key (Claims t))
  && unexpired now (Claims t).

End Jwt.

(** The [Authorization] header: absent or empty, some text that is not a
    compact JWT, or the compact form of a token, preceded by ["Bearer "]
    or not. *)
Inductive Header :=
| HEmpty
| HText (s : string)
| HToken (bearer : bool) (t : Jwt.Token).

(** [os.Getenv]. *)
Definition Env := string -> string.

Inductive AuthError :=
| ErrHeaderMissing
| ErrInvalidToken
| ErrInvalidClaims
| ErrNoUserID.

(** [getUserIDFromToken]: the prefix ["Bearer "] is trimmed, the token is
    parsed under the key [JWT_SECRET_KEY] of the environment, and the claim
    [user_id] is returned. *)
Definition getUserIDFromToken (env : Env) (now : Time) (h : Header)
  : AuthError + Z :=
  match h with
  | HEmpty => inl ErrHeaderMissing
  | HText _ => inl ErrInvalidToken
  | HToken _ t =>
      if Jwt.Valid (env "JWT_SECRET_KEY") now t
      then match Jwt.user_id (Jwt.Claims t) with
           | Some userID => inr userID
           | None => inl ErrNoUserID
           end
      else inl ErrInvalidToken
  end.

(** [secretKey], read from [JWT_SECRET] when the package is initialised. *)
Definition secretKey (env : Env) : string := env "JWT_SECRET".

(** [generateToken]: claims [user_id] and [exp], 24 hours ahead, signed
    with HS256 under [secretKey]. *)
Definition generateToken (env : Env) (now : Time) (user : User.t)
  : Jwt.Token :=
  let claims := Jwt.mkClaims (Some (User.ID user)) (Some (now + day)) in
  Jwt.SignedString Jwt.HS256 claims (secretKey env).

(** ** Replies *)

Inductive Payload :=
| Text (s : string)
| AuthErrorText (e : AuthError)
| ErrorJSON (msg : string)
| FieldErrors (l : list (string * string))
| NotesJSON (l : list Note.t)
| NoteJSON (n : Note.t)
| UserJSON (u : User.t)
| TokenJSON (t : Jwt.Token)
| NoContent.

Record Reply := mkReply {
  status : Z;
  payload : Payload
}.

Definition StatusOK := 200.
Definition StatusCreated := 201.
Definition StatusNoContent := 204.
Definition StatusBadRequest := 400.
Definition StatusUnauthorized := 401.
Definition StatusNotFound := 404.
Definition StatusInternalServerError := 500.

(** ** The validator ([github.com/go-playground/validator/v10]) *)

Module Validator.

(** [required] on a string and on an [int]: not the zero value. *)
Definition required_string (s : string) : bool := negb (String.eqb s "").
Definition required_int (z : Z) : bool := negb (z =? 0).

(** [validate.Struct(note)] with the tags of [models.Note]:
    [UserID], [Title] and [Body] are [required]. *)
Definition Struct_Note (n : Note.t) : bool :=
  required_int (Note.UserID n)
  && required_string (Note.Title n)
  && required_string (Note.Body n).

End Validator.

(** ** The note handlers ([handlers/notes.go]) *)

(** A request: the [Authorization] header, the path parameter [id], and the
    body as [BodyParser] decodes it ([None] when it cannot). *)
Record Request := mkRequest {
  Authorization : Header;
  param_id : string;
  body : option Note.t
}.

Fixpoint digits (s : string) (acc : Z) : option Z :=
  match s with
  | EmptyString => Some acc
  | String c r =>
      let d := Z.of_nat (Ascii.nat_of_ascii c) - 48 in
      if (0 <=? d) && (d <=? 9) then digits r (10 * acc + d) else None
  end.

(** [strconv.ParseUint(s, 10, 32)]. *)
Definition ParseUint32 (s : string) : option Z :=
  match s with
  | EmptyString => None
  | _ =>
      match digits s 0 with
      | Some v => if v <? 2 ^ 32 then Some v else None
      | None => None
      end
  end.

(** The characters ['0'] to ['9']. *)
Definition decimal_digit (c : Ascii.ascii) : Prop :=
  48 <= Z.of_nat (Ascii.nat_of_ascii c) <= 57.

(** [fetchUserNotes]: the user's notes with [deleted_at IS NULL]. *)
Definition fetchUserNotes (db : DB) (userID : Z) : list Note.t :=
  Gorm.Find (fun n => Note.UserID n =? userID) (notes db).

(** The test [err != nil || len(notes) == 0] of [getNotes]. *)
Definition cache_miss (r : list Note.t * option CacheError) : bool :=
  match r with
  | (_, Some _) => true
  | (ns, None) => Z.of_nat (length ns) =? 0
  end.

Definition getNotes (env : Env) (w : World) (now : Time) (req : Request)
  : Reply * World :=
  match getUserIDFromToken env now (Authorization req) with
  | inl e => (mkReply StatusUnauthorized (AuthErrorText e), w)
  | inr userID =>
      let '((ns, err), w1) := LoadNotes w userID in
      if cache_miss (ns, err) then
        let ns := fetchUserNotes (database w1) userID in
        let '(_, w2) := SaveNotes w1 now userID ns in
        (mkReply StatusOK (NotesJSON ns), w2)
      else (mkReply StatusOK (NotesJSON ns), w1)
  end.

Definition createNote (env : Env) (w : World) (now : Time) (req : Request)
  : Reply * World :=
  match body req with
  | None => (mkReply StatusBadRequest (Text "Invalid input"), w)
  | Some note =>
      if negb (Validator.Struct_Note note)
      then (mkReply StatusBadRequest (Text "Validation failed"), w)
      else
        match getUserIDFromToken env now (Authorization req) with
        | inl e => (mkReply StatusUnauthorized (AuthErrorText e), w)
        | inr userID =>
            let note := Note.set_UserID userID note in
            let db := database w in
            match Gorm.Create now note (notes db) with
            | inl _ =>
                (mkReply StatusInternalServerError
                         (Text "Unable to create note"), w)
            | inr (note, rows) =>
                let w1 := mkWorld (with_notes rows db) (notesCache w) in
                let '(_, w2) := ClearNotesCache w1 now in
                (mkReply StatusCreated (NoteJSON note), w2)
            end
        end
  end.

(** The existence and ownership check of [updateNote] and [deleteNote]:
    [Where("id = ? AND user_id = ?", noteID, userID).First(&existingNote)]. *)
Definition findOwned (db : DB) (noteID userID : Z) : Gorm.error + Note.t :=
  Gorm.First (fun n => (Note.ID n =? noteID) && (Note.UserID n =? userID))
             (notes db).

Definition updateNote (env : Env) (w : World) (now : Time) (req : Request)
  : Reply * World :=
  match ParseUint32 (param_id req) with
  | None => (mkReply StatusBadRequest (Text "Invalid note ID"), w)
  | Some noteID =>
      match body req with
      | None => (mkReply StatusBadRequest (Text "Invalid input"), w)
      | Some note =>
          if negb (Validator.Struct_Note note)
          then (mkReply StatusBadRequest (Text "Validation failed"), w)
          else
            match getUserIDFromToken env now (Authorization req) with
            | inl e => (mkReply StatusUnauthorized (AuthErrorText e), w)
            | inr userID =>
                let db := database w in
                match findOwned db noteID userID with
                | inl Gorm.ErrRecordNotFound =>
                    (mkReply StatusNotFound (Text "Note not found"), w)
                | inl _ =>
                    (mkReply StatusInternalServerError
                             (Text "Database error"), w)
                | inr _ =>
                    let note := Note.set_ID noteID note in
                    let note := Note.set_UserID userID note in
                    match Gorm.Save now note (notes db) with
                    | inl _ =>
                        (mkReply StatusInternalServerError
                                 (Text "Unable to update note"), w)
                    | inr (note, rows) =>
                        let w1 :=
                          mkWorld (with_notes rows db) (notesCache w) in
                        let '(_, w2) := ClearNotesCache w1 now in
                        (mkReply StatusOK (NoteJSON note), w2)
                    end
                end
            end
      end
  end.

Definition deleteNote (env : Env) (w : World) (now : Time) (req : Request)
  : Reply * World :=
  match ParseUint32 (param_id req) with
  | None => (mkReply StatusBadRequest (Text "Invalid note ID"), w)
  | Some noteID =>
      match getUserIDFromToken env now (Authorization req) with
      | inl e => (mkReply StatusUnauthorized (AuthErrorText e), w)
      | inr userID =>
          let db := database w in
          match findOwned db noteID userID with
          | inl Gorm.ErrRecordNotFound =>
              (mkReply StatusNotFound (Text "Note not found"), w)
          | inl _ =>
              (mkReply StatusInternalServerError (Text "Database error"), w)
          | inr existingNote =>
              let existingNote :=
                Note.set_DeletedAt (Some now) existingNote in
              match Gorm.Save now existingNote (notes db) with
              | inl _ =>
                  (mkReply StatusInternalServerError
                           (Text "Unable to delete note"), w)
              | inr (_, rows) =>
                  let w1 := mkWorld (with_notes rows db) (notesCache w) in
                  let '(_, w2) := ClearNotesCache w1 now in
                  (mkReply StatusNoContent NoContent, w2)
              end
          end
      end
  end.

(** ** Registration, login and the middleware ([handlers/auth.go]) *)

(** [utf8.RuneCountInString] on valid UTF-8 (what the JSON decoder
    produces): the bytes that are not continuation bytes. *)
Fixpoint RuneCountInString (s : string) : Z :=
  match s with
  | EmptyString => 0
  | String c r =>
      (if Z.land (Z.of_nat (Ascii.nat_of_ascii c)) 192 =? 128 then 0 else 1)
      + RuneCountInString r
  end.

Inductive Validation :=
| Valid
| Invalid (errs : list (string * string))
| BadFieldType.

(** What a handler does with a request: a reply and the new state, or a
    panic inside a library call. *)
Inductive Outcome :=
| Replied (r : Reply) (w : World)
| Panicked.

(** What the middleware does: a reply, or [c.Next()] with the user stored
    in the request's locals, or a panic. *)
Inductive Middleware :=
| Respond (r : Reply)
| Next (user : User.t)
| MiddlewarePanicked.

Section Auth.

(** The validator's [email] tag (a regular expression). *)
Variable isEmail : string -> bool.

(** [bcrypt.GenerateFromPassword(password, DefaultCost)], [None] for an
    error, and [bcrypt.CompareHashAndPassword(hash, password)], [true] for
    [nil]. *)
Variable GenerateFromPassword : string -> option string.
Variable CompareHashAndPassword : string -> string -> bool.

(** The first failing tag of a field, in the order the tags are written. *)
Definition first_failure (field : string) (checks : list (string * bool))
  : list (string * string) :=
  match List.find (fun c => negb (snd c)) checks with
  | Some (tag, _) => [(field, tag)]
  | None => []
  end.

(** [models.ValidateUser]: [validate.Struct(user)] with the tags of
    [models.User].  [DateOfBirth] is a [time.Time] tagged
    [omitempty,datetime=...]: a zero date is skipped; the [datetime] check
    is defined on strings and panics on another type. *)
Definition ValidateUser (u : User.t) : Validation :=
  let errs :=
    first_failure "Username"
      [("required", Validator.required_string (User.Username u));
       ("min", 3 <=? RuneCountInString (User.Username u));
       ("max", RuneCountInString (User.Username u) <=? 32)]
    ++ first_failure "Password"
      [("required", Validator.required_string (User.Password u));
       ("min", 8 <=? RuneCountInString (User.Password u))]
    ++ first_failure "FirstName"
      [("required", Validator.required_string (User.FirstName u))]
    ++ first_failure "LastName"
      [("required", Validator.required_string (User.LastName u))]
    ++ first_failure "Email"
      [("required", Validator.required_string (User.Email u));
       ("email", isEmail (User.Email u))] in
  if negb (IsZero (User.DateOfBirth u)) then BadFieldType
  else match errs with
       | [] => Valid
       | _ => Invalid errs
       end.

Definition Register (w : World) (now : Time) (req : option User.t)
  : Outcome :=
  match req with
  | None => Replied (mkReply StatusBadRequest (Text "Invalid input")) w
  | Some user =>
      match ValidateUser user with
      | BadFieldType => Panicked
      | Invalid errs =>
          Replied (mkReply StatusBadRequest (FieldErrors errs)) w
      | Valid =>
          let db := database w in
          match Gorm.First
                  (fun r => String.eqb (User.Username r) (User.Username user))
                  (users db) with
          | inr _ =>
              Replied (mkReply StatusBadRequest
                               (Text "Username already exists")) w
          | inl Gorm.ErrRecordNotFound =>
              match GenerateFromPassword (User.Password user) with
              | None =>
                  Replied (mkReply StatusInternalServerError
                                   (Text "Error while hashing password")) w
              | Some hashedPassword =>
                  let user := User.set_Password hashedPassword user in
                  match Gorm.Create now user (users db) with
                  | inl _ =>
                      Replied (mkReply StatusInternalServerError
                                       (Text "Unable to register user")) w
                  | inr (user, rows) =>
                      Replied (mkReply StatusCreated (UserJSON user))
                              (mkWorld (with_users rows db) (notesCache w))
                  end
              end
          | inl _ =>
              Replied (mkReply StatusInternalServerError
                               (Text "Database error")) w
          end
      end
  end.

Definition Login (env : Env) (w : World) (now : Time)
    (req : option User.t) : Reply :=
  match req with
  | None => mkReply StatusBadRequest (ErrorJSON "Invalid input")
  | Some loginData =>
      match Gorm.First
              (fun r => String.eqb (User.Username r) (User.Username loginData))
              (users (database w)) with
      | inl Gorm.ErrRecordNotFound =>
          mkReply StatusUnauthorized (ErrorJSON "Invalid username or password")
      | inl _ =>
          mkReply StatusInternalServerError
                  (ErrorJSON "Error retrieving user data")
      | inr user =>
          if negb (CompareHashAndPassword (User.Password user)
                                          (User.Password loginData))
          then mkReply StatusUnauthorized
                       (ErrorJSON "Invalid username or password")
          else mkReply StatusOK (TokenJSON (generateToken env now user))
      end
  end.

End Auth.

(** [AuthMiddleware]: the header goes to [jwt.Parse] as it is (a
    ["Bearer "] prefix makes it unparsable), the key is [secretKey], and
    the user of the claim [user_id] is looked up by primary key. *)
Definition AuthMiddleware (env : Env) (w : World) (now : Time) (h : Header)
  : Middleware :=
  match h with
  | HEmpty =>
      Respond (mkReply StatusUnauthorized
                       (ErrorJSON "Authorization token required"))
  | HText _ | HToken true _ =>
      Respond (mkReply StatusUnauthorized (ErrorJSON "Invalid token"))
  | HToken false t =>
      if Jwt.Valid (secretKey env) now t then
        match Jwt.user_id (Jwt.Claims t) with
        | None => MiddlewarePanicked
        | Some userID =>
            match Gorm.First (fun r => User.ID r =? userID)
                             (users (database w)) with
            | inl _ =>
                Respond (mkReply StatusUnauthorized
                                 (ErrorJSON "User not found"))
            | inr user => Next user
            end
        end
      else Respond (mkReply StatusUnauthorized (ErrorJSON "Invalid token"))
  end.

(** ** Method dispatch and [/me] ([handlers/notes.go]) *)

Definition StatusMethodNotAllowed := 405.

(** [NotesHandler]: one handler for the four note routes, which picks the
    operation by [c.Method()]. *)
Definition NotesHandler (env : Env) (w : World) (now : Time)
    (method : string) (req : Request) : Reply * World :=
  if String.eqb method "GET" then getNotes env w now req
  else if String.eqb method "POST" then createNote env w now req
  else if String.eqb method "PUT" then updateNote env w now req
  else if String.eqb method "DELETE" then deleteNote env w now req
  else (mkReply StatusMethodNotAllowed (Text "Method not allowed"), w).


(** ** The validating middlewares ([handlers/notes.go]) *)

(** The text of a validation error, [ValidationErrors.Error()]: for each
    failing field the line
    [Key: '<namespace>' Error:Field validation for '<field>' failed on the
    '<tag>' tag], the lines separated by a line feed.  The namespace is the
    field behind the name of the struct type and a dot; an anonymous struct
    has no name and gives the field alone. *)
Definition FieldError_Error (ns field tag : string) : string :=
  String.concat ""
    ["Key: '"; ns; "' Error:Field validation for '"; field;
     "' failed on the '"; tag; "' tag"].

Definition line_feed : string := String (Ascii.ascii_of_nat 10) EmptyString.

Definition ValidationErrors_Error (type_name : string)
    (errs : list (string * string)) : string :=
  let ns field :=
    if String.eqb type_name "" then field
    else String.concat "" [type_name; "."; field] in
  String.concat line_feed
    (map (fun e => FieldError_Error (ns (fst e)) (fst e) (snd e)) errs).

(** What a validating middleware does with a request: a reply of its own,
    [c.Next()], or a panic inside the validator. *)
Inductive Checked :=
| Refused (r : Reply)
| Passed
| CheckPanicked.

(** The anonymous struct [ValidateLogin] decodes the body into. *)
Record LoginData := mkLoginData {
  login_Username : string;
  login_Password : string
}.

Module Handlers.
Section Middlewares.

Variable isEmail : string -> bool.

(** The text of the validator's error for a note it refuses
    ([err.Error()]). *)
Variable NoteError : Note.t -> string.

(** [ValidateLogin]: [username] and [password] are [required]. *)
Definition ValidateLogin (req : option LoginData) : Checked :=
  match req with
  | None => Refused (mkReply StatusBadRequest (ErrorJSON "Invalid input"))
  | Some loginData =>
      let errs :=
        first_failure "Username"
          [("required", Validator.required_string (login_Username loginData))]
        ++ first_failure "Password"
          [("required", Validator.required_string (login_Password loginData))]
      in
      match errs with
      | [] => Passed
      | _ =>
          Refused (mkReply StatusBadRequest
                     (ErrorJSON (String.append "Validation failed: "
                                   (ValidationErrors_Error "" errs))))
      end
  end.


(** [handlers.ValidateUser]: the body is decoded and validated as a
    [models.User], with the validation [models.ValidateUser] runs. *)
Definition ValidateUser (req : option User.t) : Checked :=
  match req with
  | None => Refused (mkReply StatusBadRequest (ErrorJSON "Invalid input"))
  | Some user =>
      match ValidateUser isEmail user with
      | BadFieldType => CheckPanicked
      | Invalid errs =>
          Refused (mkReply StatusBadRequest
                     (ErrorJSON (String.append "Validation failed: "
                                   (ValidationErrors_Error "User" errs))))
      | Valid => Passed
      end
  end.

End Middlewares.
End Handlers.

(** ** The routes ([cmd/main.go])

    [main] puts a validating middleware in front of each of the prefixes
    [/register], [/login] and [/notes] with [app.Use], for every method
    and every path below the prefix; [defineRoutes] then registers the
    handlers.  A request goes through the middleware of its prefix first
    and reaches its handler when the middleware calls [c.Next()].
    Middleware and handler decode the same body, each on its own. *)

Inductive NotesRoute :=
| GET_notes
| POST_notes
| PUT_notes_id
| DELETE_notes_id.

Definition Method (r : NotesRoute) : string :=
  match r with
  | GET_notes => "GET"
  | POST_notes => "POST"
  | PUT_notes_id => "PUT"
  | DELETE_notes_id => "DELETE"
  end.

Section Routes.

Variable isEmail : string -> bool.
Variable GenerateFromPassword : string -> option string.
Variable CompareHashAndPassword : string -> string -> bool.
Variable NoteError : Note.t -> string.


(** [POST /register]. *)
Definition route_register (w : World) (now : Time) (req : option User.t)
  : Outcome :=
  match Handlers.ValidateUser isEmail req with
  | Refused reply => Replied reply w
  | CheckPanicked => Panicked
  | Passed => Register isEmail GenerateFromPassword w now req
  end.

(** [POST /login].  The middleware decodes the body into its own struct
    ([loginData]), the handler into a [models.User] ([req]). *)
Definition route_login (env : Env) (w : World) (now : Time)
    (loginData : option LoginData) (req : option User.t) : Outcome :=
  match Handlers.ValidateLogin loginData with
  | Refused reply => Replied reply w
  | CheckPanicked => Panicked
  | Passed => Replied (Login CompareHashAndPassword env w now req) w
  end.

End Routes.


(** ** The query helpers ([internal/db])

    Each helper returns what the Go function returns, [(value, err)] as a
    pair with [None] for [nil]; a helper that changes the database returns
    the new database too. *)

Module Db.

Inductive error :=
| ErrUserNotFound
| Wrapped (context : string) (e : Gorm.error)
| Unwrapped (e : Gorm.error).

(** [GetUserByID]: [First(&user, "id = ? AND deleted_at IS NULL", userID)]. *)
Definition GetUserByID (db : DB) (userID : Z) : User.t * option error :=
  match Gorm.First
          (fun r => (User.ID r =? userID) && Gorm.is_null (User.DeletedAt r))
          (users db) with
  | inr user => (user, None)
  | inl Gorm.ErrRecordNotFound => (User.zero, Some ErrUserNotFound)
  | inl e => (User.zero, Some (Unwrapped e))
  end.

(** [db.LoadNotes]: [Where("deleted_at IS NULL").Find(&notes)]. *)
Definition LoadNotes (db : DB) : list Note.t * option error :=
  (Gorm.Find (fun n => Gorm.is_null (Note.DeletedAt n)) (notes db), None).

(** [InsertNote]: [Create(note)]; the note behind the pointer comes back
    with key and stamps. *)
Definition InsertNote (db : DB) (now : Time) (note : Note.t)
  : error + (Note.t * DB) :=
  match Gorm.Create now note (notes db) with
  | inl e => inl (Wrapped "error inserting note" e)
  | inr (note, rows) => inr (note, with_notes rows db)
  end.

(** [SoftDeleteNoteInDB]:
    [Model(&Note{}).Where("id = ?", noteID).Update("deleted_at", now)]. *)
Definition SoftDeleteNoteInDB (db : DB) (now : Time) (noteID : Z)
  : option error * DB :=
  (None,
   with_notes
     (Gorm.Update (fun n => Note.ID n =? noteID)
                  (Note.set_DeletedAt (Some now)) now (notes db))
     db).

(** [NoteExists]: a count over
    ["id = ? AND user_id = ? AND deleted_at IS NULL"]. *)
Definition NoteExists (db : DB) (noteID userID : Z) : bool * option error :=
  (0 <? Gorm.Count
          (fun n => (Note.ID n =? noteID) && (Note.UserID n =? userID)
                    && Gorm.is_null (Note.DeletedAt n))
          (notes db),
   None).

(** [CheckExistingUser]: a count over ["username = ?"]. *)
Definition CheckExistingUser (db : DB) (username : string)
  : bool * option error :=
  (0 <? Gorm.Count (fun r => String.eqb (User.Username r) username)
                   (users db),
   None).

(** [InsertNewUser]: both stamps are set to the current time, then
    [Create(&user)] on the function's copy of the user. *)
Definition InsertNewUser (db : DB) (now : Time) (user : User.t)
  : option error * DB :=
  let user := User.set_CreatedAt now user in
  let user := User.set_UpdatedAt now user in
  match Gorm.Create now user (users db) with
  | inl e => (Some (Wrapped "error inserting new user" e), db)
  | inr (_, rows) => (None, with_users rows db)
  end.

(** [GetUserID] and [GetUserByUsername]: [Where("username = ?").First]. *)
Definition GetUserID (db : DB) (username : string) : Z * option error :=
  match Gorm.First (fun r => String.eqb (User.Username r) username)
                   (users db) with
  | inl e => (0, Some (Wrapped "error retrieving user ID" e))
  | inr user => (User.ID user, None)
  end.

Definition GetUserByUsername (db : DB) (username : string)
  : User.t * option error :=
  match Gorm.First (fun r => String.eqb (User.Username r) username)
                   (users db) with
  | inl e => (User.zero, Some (Wrapped "error retrieving user by username" e))
  | inr user => (user, None)
  end.

End Db.

(** ** Sample data

    The environment of [docker-compose.yml] sets [JWT_SECRET] only;
    [env_both] also sets [JWT_SECRET_KEY], to the same value. *)

Definition env_compose : Env :=
  fun name => if String.eqb name "JWT_SECRET" then "mytestcode" else "".

Definition env_both : Env :=
  fun name =>
    if String.eqb name "JWT_SECRET" then "mytestcode"
    else if String.eqb name "JWT_SECRET_KEY" then "mytestcode"
    else "".

Definition alice : User.t :=
  User.mk 1 900 900 None "alice" "$2a$10$password123" "A" "L" "a@x.com"
          "" "" "" zero_time.

(** The token a login of [alice] at time 1000 returns, as a client sends
    it to the note routes. *)
Definition alice_bearer (env : Env) : Header :=
  HToken true (generateToken env 1000 alice).

(** A decoded body [{"title": t, "body": b}], and the same with
    ["user_id": uid]. *)
Definition title_body (t b : string) : Note.t :=
  Note.mk 0 zero_time zero_time 0 t b None.
Definition owner_title_body (uid : Z) (t b : string) : Note.t :=
  Note.mk 0 zero_time zero_time uid t b None.

(** The note [alice] created at 1001. *)
Definition note_T : Note.t := Note.mk 1 1001 1001 1 "T" "B" None.

(** [alice] and her note in the database, nothing cached; then she lists
    at 1002. *)
Definition world_created : World := mkWorld (mkDB [alice] [note_T] []) ∅.
Definition world_listed : World :=
  snd (getNotes env_both world_created 1002
         (mkRequest (alice_bearer env_both) "" None)).

(** Then she changes the title at 1003, or deletes the note at 1003. *)
Definition world_updated : World :=
  snd (updateNote env_both world_listed 1003
         (mkRequest (alice_bearer env_both) "1"
                    (Some (owner_title_body 1 "T2" "B")))).
Definition world_deleted : World :=
  snd (deleteNote env_both world_listed 1003
         (mkRequest (alice_bearer env_both) "1" None)).

(** [deleteNote] at 1003 between [Save] and [ClearNotesCache]: the row is
    stamped, both tiers of the cache still hold the note. *)
Definition world_delete_saved : World :=
  mkWorld
    (with_notes [Note.mk 1 1001 1003 1 "T" "B" (Some 1003)]
                (database world_listed))
    (notesCache world_listed).

(** The same database two days later in a fresh process ([notesCache]
    empty): the row written at 1002 expired at 87402. *)
Definition world_restarted : World := mkWorld (database world_listed) ∅.

(** Another user, and a token of his accepted by the note routes. *)
Definition bob : User.t :=
  User.mk 2 950 950 None "bob" "$2a$10$hunter2hunter2" "B" "O" "b@x.com"
          "" "" "" zero_time.
Definition bob_bearer (env : Env) : Header :=
  HToken true (generateToken env 1000 bob).

(** The database after the account of [alice] was soft-deleted at 1500;
    her token of 1000 is valid until 87400. *)
Definition world_account_deleted : World :=
  mkWorld (mkDB [User.set_DeletedAt (Some 1500) alice] [note_T] []) ∅.

(** Registration bodies: a new user with the e-mail address of [alice],
    and a new user with an address of her own. *)
Definition candidate (name email : string) : User.t :=
  User.mk 0 zero_time zero_time None name "password123" "B" "O" email
          "" "" "" zero_time.

(** Login bodies. *)
Definition credentials (name password : string) : User.t :=
  User.mk 0 zero_time zero_time None name password "" "" "" "" "" ""
          zero_time.

Definition world_alice : World := mkWorld (mkDB [alice] [] []) ∅.

(** The ownership of a note, in the words of the specification: an active
    note (soft-delete stamp unset) with the given id exists for the owner. *)
Definition active_owned (db : DB) (noteID userID : Z) : Prop :=
  exists n, In n (notes db) /\ Note.ID n = noteID
            /\ Note.UserID n = userID /\ Note.DeletedAt n = None.

(** The note of [alice] with the title changed at 1003, and a note of
    [bob]; a database with both users and a note of each. *)
Definition note_T2 : Note.t := Note.mk 1 1001 1003 1 "T2" "B" None.
Definition note_U : Note.t := Note.mk 2 1005 1005 2 "U" "V" None.
Definition world_two_owners : World :=
  mkWorld (mkDB [alice; bob] [note_T; note_U] []) ∅.

(** [bob] as [Register] stores him at 2000 when [alice] is the only user,
    and the state after it. *)
Definition bob_registered : User.t :=
  User.mk 2 2000 2000 None "bob" "$2a$10$password123" "B" "O" "b@x.com"
          "" "" "" zero_time.
Definition world_bob_registered : World :=
  mkWorld (mkDB [alice; bob_registered] [] []) ∅.


(** Every cached list, in [notesCache] and in the cache table, holds notes
    of the user it is kept for. *)
Definition cache_owned (w : World) : Prop :=
  (forall u ns n, notesCache w !! u = Some ns -> In n ns -> Note.UserID n = u)
  /\ (forall c n, In c (caches (database w)) -> In n (Cache.Notes c) ->
                  Note.UserID n = Cache.UserID c).

(** An e-mail recogniser and a password hash for running [Register] and
    [Login] on examples: an ['@'] inside the address, and a hash that is
    the password behind a fixed prefix. *)
Fixpoint has_at (s : string) : bool :=
  match s with
  | EmptyString => false
  | String c r => Ascii.eqb c (Ascii.ascii_of_nat 64) || has_at r
  end.
Definition sample_isEmail (s : string) : bool :=
  match s with
  | EmptyString => false
  | String c r => negb (Ascii.eqb c (Ascii.ascii_of_nat 64)) && has_at r
  end.
Definition sample_hash (p : string) : option string :=
  Some (String.append "$2a$10$" p).
Definition sample_compare (h p : string) : bool :=
  String.eqb h (String.append "$2a$10$" p).


(** * Properties *)

(** ** Queries *)

Section GormFacts.
Context {A : Type} `{Gorm.Schema A}.

Lemma least_None (rows : list A) : Gorm.least rows = None -> rows = [].
Proof.
  destruct rows as [|r rows]; [reflexivity|].
  simpl. destruct (Gorm.least rows); [destruct (_ <=? _)|]; discriminate.
Qed.

Lemma least_In (rows : list A) (r : A) :
  Gorm.least rows = Some r -> In r rows.
Proof.
  revert r. induction rows as [|x rows IH]; simpl; intros r Hr.
  - discriminate.
  - destruct (Gorm.least rows) as [a|].
    + destruct (Gorm.pk x <=? Gorm.pk a); inversion Hr; subst; auto.
    + inversion Hr; auto.
Qed.

Lemma First_inl (cond : A -> bool) (rows : list A) (e : Gorm.error) :
  Gorm.First cond rows = inl e ->
  e = Gorm.ErrRecordNotFound
  /\ forall r, In r rows -> Gorm.visible cond r = false.
Proof.
  unfold Gorm.First.
  destruct (Gorm.least _) as [a|] eqn:E; [discriminate|].
  intros Heq; inversion Heq; split; [reflexivity|].
  apply least_None in E. intros r Hr.
  destruct (Gorm.visible cond r) eqn:V; [|reflexivity].
  assert (X : In r (List.filter (Gorm.visible cond) rows))
    by (apply filter_In; auto).
  rewrite E in X. destruct X.
Qed.

Lemma First_inr (cond : A -> bool) (rows : list A) (r : A) :
  Gorm.First cond rows = inr r -> In r rows /\ Gorm.visible cond r = true.
Proof.
  unfold Gorm.First.
  destruct (Gorm.least _) as [a|] eqn:E; [|discriminate].
  intros Heq; inversion Heq; subst.
  apply least_In in E. apply filter_In in E. exact E.
Qed.

Lemma First_exists (cond : A -> bool) (rows : list A) (r : A) :
  In r rows -> Gorm.visible cond r = true ->
  exists r', Gorm.First cond rows = inr r'.
Proof.
  intros Hin Hv. destruct (Gorm.First cond rows) as [e|r'] eqn:E.
  - apply First_inl in E. destruct E as [_ E].
    rewrite (E r Hin) in Hv. discriminate.
  - eauto.
Qed.

End GormFacts.

(** ** The cache layer *)

(** [db.Delete(&Cache{})] has no condition and a zero primary key: the
    statement is refused, and the rows of the cache table stay. *)
Lemma ClearNotesCache_rows_stay (w : World) (now : Time) :
  ClearNotesCache w now
  = (Some Gorm.ErrMissingWhereClause, mkWorld (database w) ∅).
Proof. reflexivity. Qed.

(** A read that misses [notesCache] answers with the notes of the user's
    cache row, whatever its [ExpiryDate] and whatever the notes table. *)
Lemma LoadNotes_row (w : World) (userID : Z) (c : Cache.t) :
  notesCache w !! userID = None ->
  Gorm.First (fun c => Cache.UserID c =? userID) (caches (database w))
  = inr c ->
  LoadNotes w userID
  = ((Cache.Notes c, None),
     mkWorld (database w) (<[userID := Cache.Notes c]> (notesCache w))).
Proof.
  intros Hm Hr. unfold LoadNotes. rewrite Hm, Hr. reflexivity.
Qed.


(** [getNotes] on a hit: the cached list is the reply, the database is not
    consulted for notes and no cache row is written. *)
Lemma getNotes_hit (env : Env) (w : World) (now : Time) (req : Request)
    (userID : Z) (ns : list Note.t) :
  getUserIDFromToken env now (Authorization req) = inr userID ->
  fst (LoadNotes w userID) = (ns, None) ->
  ns <> [] ->
  getNotes env w now req
  = (mkReply StatusOK (NotesJSON ns), snd (LoadNotes w userID)).
Proof.
  intros Hu Hl Hne. unfold getNotes. rewrite Hu.
  destruct (LoadNotes w userID) as [[ns' err] w1]. simpl in Hl.
  inversion Hl; subst. destruct ns; [congruence|]. reflexivity.
Qed.

(** A reply with an empty list always comes from [fetchUserNotes]. *)
Lemma getNotes_empty_reply_from_repository (env : Env) (w : World)
    (now : Time) (req : Request) (userID : Z) :
  getUserIDFromToken env now (Authorization req) = inr userID ->
  payload (fst (getNotes env w now req)) = NotesJSON [] ->
  cache_miss (fst (LoadNotes w userID)) = true.
Proof.
  intros Hu. unfold getNotes. rewrite Hu.
  destruct (LoadNotes w userID) as [[ns err] w1].
  destruct err as [e|]; [reflexivity|].
  destruct ns as [|n ns]; [reflexivity|].
  simpl. discriminate.
Qed.

(** C1 (the code departs from the specification).  [ClearNotesCache]
    empties [notesCache] but leaves the rows of the cache table: after it,
    a list request of a user whose cache row holds some notes is answered
    from that row, whatever the notes table holds by then, and nothing is
    read from or written to the repository. *)
Theorem C1_list_after_invalidation_reads_the_cache_row :
  forall (env : Env) (w : World) (now now' : Time) (req : Request)
         (userID : Z) (c : Cache.t),
    getUserIDFromToken env now' (Authorization req) = inr userID ->
    Gorm.First (fun c => Cache.UserID c =? userID) (caches (database w))
    = inr c ->
    Cache.Notes c <> [] ->
    caches (database (snd (ClearNotesCache w now))) = caches (database w)
    /\ getNotes env (snd (ClearNotesCache w now)) now' req
       = (mkReply StatusOK (NotesJSON (Cache.Notes c)),
          mkWorld (database w) (<[userID := Cache.Notes c]> ∅)).
Proof.
  intros env w now now' req userID c Hu Hr Hne.
  rewrite ClearNotesCache_rows_stay. simpl. split; [reflexivity|].
  assert (Hl : LoadNotes (mkWorld (database w) ∅) userID
               = ((Cache.Notes c, None),
                  mkWorld (database w) (<[userID := Cache.Notes c]> ∅))).
  { apply (LoadNotes_row (mkWorld (database w) ∅) userID c);
      [apply lookup_empty | exact Hr]. }
  rewrite (getNotes_hit env _ now' req userID (Cache.Notes c) Hu);
    try rewrite Hl; auto.
Qed.

(** [alice] lists, deletes her note and lists again.  [world_delete_saved]
    is the state of [deleteNote] after [Save], before [ClearNotesCache];
    the list that follows still shows the note. *)
Lemma C1_deleted_note_is_still_listed :
  snd (ClearNotesCache world_delete_saved 1003) = world_deleted
  /\ fetchUserNotes (database world_deleted) 1 = []
  /\ caches (database (snd (ClearNotesCache world_delete_saved 1003)))
     = caches (database world_delete_saved)
  /\ getNotes env_both (snd (ClearNotesCache world_delete_saved 1003)) 1004
       (mkRequest (alice_bearer env_both) "" None)
     = (mkReply StatusOK (NotesJSON [note_T]),
        mkWorld (database world_delete_saved) (<[1 := [note_T]]> ∅)).
Proof.
  split; [vm_compute; reflexivity|]. split; [vm_compute; reflexivity|].
  apply (C1_list_after_invalidation_reads_the_cache_row env_both
           world_delete_saved 1003 1004
           (mkRequest (alice_bearer env_both) "" None) 1
           (Cache.mk 1 1002 1002 None 1 [note_T] (1002 + day)));
    [reflexivity | vm_compute; reflexivity | discriminate].
Defined.

(** The scenario of the specification: [alice] lists, changes the title to
    "T2" and lists again; the second list still shows the title "T",
    while the notes table holds "T2". *)
Lemma list_after_update_is_stale :
  caches (database world_updated) = caches (database world_listed)
  /\ notesCache world_updated = ∅
  /\ fetchUserNotes (database world_updated) 1
     = [Note.mk 1 zero_time 1003 1 "T2" "B" None]
  /\ fst (getNotes env_both world_updated 1004
            (mkRequest (alice_bearer env_both) "" None))
     = mkReply StatusOK (NotesJSON [Note.mk 1 1001 1001 1 "T" "B" None]).
Proof. vm_compute. repeat split; reflexivity. Qed.

(** C6 (the code departs from the specification).  [LoadNotes] never
    reads [ExpiryDate]: when [notesCache] misses and the cache row of the
    user has expired, the notes of the row are returned without an error,
    and [getNotes] serves them when there are any. *)
Theorem C6_expired_row_is_served :
  forall (env : Env) (w : World) (now : Time) (req : Request) (userID : Z)
         (c : Cache.t),
    getUserIDFromToken env now (Authorization req) = inr userID ->
    notesCache w !! userID = None ->
    Gorm.First (fun c => Cache.UserID c =? userID) (caches (database w))
    = inr c ->
    Cache.ExpiryDate c < now ->
    fst (LoadNotes w userID) = (Cache.Notes c, None)
    /\ (Cache.Notes c <> [] ->
        fst (getNotes env w now req)
        = mkReply StatusOK (NotesJSON (Cache.Notes c))).
Proof.
  intros env w now req userID c Hu Hm Hr _.
  assert (Hl : fst (LoadNotes w userID) = (Cache.Notes c, None))
    by (rewrite (LoadNotes_row w userID c Hm Hr); reflexivity).
  split; [exact Hl|]. intros Hne.
  rewrite (getNotes_hit env w now req userID (Cache.Notes c) Hu Hl Hne).
  reflexivity.
Qed.

(** The row [SaveNotes] wrote at 1002 expires at 1002 + 24h; a day after
    that, in a fresh process, [alice] is still served from it. *)
Lemma C6_row_served_a_day_after_expiry :
  map Cache.ExpiryDate (caches (database world_restarted)) = [1002 + day]
  /\ fst (LoadNotes world_restarted 1) = ([note_T], None)
  /\ fst (getNotes env_both world_restarted (1002 + 2 * day)
            (mkRequest
               (HToken true (generateToken env_both (1002 + 2 * day - 60)
                                           alice))
               "" None))
     = mkReply StatusOK (NotesJSON [note_T]).
Proof.
  split; [vm_compute; reflexivity|].
  assert (H := C6_expired_row_is_served env_both world_restarted
                 (1002 + 2 * day)
                 (mkRequest
                    (HToken true
                       (generateToken env_both (1002 + 2 * day - 60) alice))
                    "" None)
                 1 (Cache.mk 1 1002 1002 None 1 [note_T] (1002 + day))).
  destruct H as [Hl Hg];
    [reflexivity | reflexivity | vm_compute; reflexivity
    | vm_compute; reflexivity |].
  split; [exact Hl|]. apply Hg. discriminate.
Defined.

(** C10 (the code departs from the specification, through the defect of
    C1).  After [alice] deleted her only note her set of active notes is
    empty, but her cache row still holds the note: the next list is a hit,
    the reply is the deleted note, and nothing is written to the cache
    table. *)
Theorem C10_stale_hit_for_user_without_notes :
  let req := mkRequest (alice_bearer env_both) "" None in
  fetchUserNotes (database world_deleted) 1 = []
  /\ cache_miss (fst (LoadNotes world_deleted 1)) = false
  /\ fst (getNotes env_both world_deleted 1004 req)
     = mkReply StatusOK (NotesJSON [note_T])
  /\ database (snd (getNotes env_both world_deleted 1004 req))
     = database world_deleted.
Proof. vm_compute. repeat split; reflexivity. Qed.

(** ** Creating and updating notes *)

Lemma next_id_gt (ids : list Z) (x : Z) : In x ids -> x < Gorm.next_id ids.
Proof.
  unfold Gorm.next_id. induction ids as [|y ids IH]; simpl; [tauto|].
  intros [->|Hin]; [lia|]. specialize (IH Hin). lia.
Qed.

(** C7 (the code departs from the specification).  [createNote] validates
    the decoded body before it assigns the owner, and [UserID] is tagged
    [required]: a body without [user_id] is answered 400 "Validation
    failed", whatever the token, and nothing is stored. *)
Theorem C7_create_needs_user_id_in_body :
  forall (env : Env) (w : World) (now : Time) (req : Request) (note : Note.t),
    body req = Some note ->
    Note.UserID note = 0 ->
    createNote env w now req
    = (mkReply StatusBadRequest (Text "Validation failed"), w).
Proof.
  intros env w now req note Hb Hz. unfold createNote. rewrite Hb.
  unfold Validator.Struct_Note, Validator.required_int. rewrite Hz.
  reflexivity.
Qed.

(** The request of the README ([{"title": "New Note", "body": "Note
    content"}] with the token of a login) is refused. *)
Lemma C7_readme_request_refused :
  createNote env_both (mkWorld (mkDB [alice] [] []) ∅) 1001
    (mkRequest (alice_bearer env_both) ""
               (Some (title_body "New Note" "Note content")))
  = (mkReply StatusBadRequest (Text "Validation failed"),
     mkWorld (mkDB [alice] [] []) ∅).
Proof.
  apply (C7_create_needs_user_id_in_body env_both _ 1001 _
           (title_body "New Note" "Note content")); reflexivity.
Defined.

(** [Save] of a note whose key is that of an active row: the row becomes
    the saved value, stamped with the current time. *)
Lemma Save_Note_update (now : Time) (v : Note.t) (rows : list Note.t)
    (old : Note.t) :
  Note.ID v <> 0 ->
  In old rows ->
  Note.ID old = Note.ID v ->
  Note.DeletedAt old = None ->
  Gorm.Save now v rows
  = inr (Note.set_UpdatedAt now v,
         map (fun r => if (Note.ID r =? Note.ID v)
                          && Gorm.is_null (Note.DeletedAt r)
                       then Note.set_UpdatedAt now v else r) rows).
Proof.
  intros Hnz Hin Hid Hnull. unfold Gorm.Save. simpl.
  destruct (Note.ID v =? 0) eqn:E; [apply Z.eqb_eq in E; contradiction|].
  unfold Gorm.visible. simpl.
  assert (Hex : existsb (fun r => (Note.ID r =? Note.ID v)
                                  && Gorm.is_null (Note.DeletedAt r)) rows
                = true).
  { apply existsb_exists. exists old. split; [exact Hin|].
    rewrite Hid, Z.eqb_refl, Hnull. reflexivity. }
  rewrite Hex. reflexivity.
Qed.




(** ** The ownership check *)

Lemma findOwned_inl (db : DB) (noteID userID : Z) (e : Gorm.error) :
  findOwned db noteID userID = inl e ->
  e = Gorm.ErrRecordNotFound /\ ~ active_owned db noteID userID.
Proof.
  unfold findOwned. intros Hf. apply First_inl in Hf.
  destruct Hf as [He Hall]. split; [exact He|].
  intros (n & Hin & Hid & Hown & Hdel).
  specialize (Hall n Hin). unfold Gorm.visible in Hall. simpl in Hall.
  rewrite Hid, Hown, Hdel, !Z.eqb_refl in Hall. discriminate.
Qed.

Lemma findOwned_inr (db : DB) (noteID userID : Z) (n : Note.t) :
  findOwned db noteID userID = inr n -> active_owned db noteID userID.
Proof.
  unfold findOwned. intros Hf. apply First_inr in Hf.
  destruct Hf as [Hin Hvis]. unfold Gorm.visible in Hvis. simpl in Hvis.
  apply andb_prop in Hvis. destruct Hvis as [Hc Hnull].
  apply andb_prop in Hc. destruct Hc as [Hid Hown].
  apply Z.eqb_eq in Hid. apply Z.eqb_eq in Hown.
  exists n. repeat split; auto.
  destruct (Note.DeletedAt n); [discriminate|reflexivity].
Qed.

(** The three ways of having no active note of one's own under an id: no
    row has the id, the rows with the id belong to others, or they are
    soft-deleted. *)
Lemma no_active_owned_cases (db : DB) (noteID userID : Z) :
  (forall n, In n (notes db) -> Note.ID n = noteID ->
             Note.UserID n <> userID \/ Note.DeletedAt n <> None) ->
  ~ active_owned db noteID userID.
Proof.
  intros Hall (n & Hin & Hid & Hown & Hdel).
  destruct (Hall n Hin Hid) as [H|H]; contradiction.
Qed.



(** ** Tokens *)

(** The claims of an issued token: the id of the user and an expiry 24
    hours after issuance. *)
Lemma generateToken_claims (env : Env) (now : Time) (user : User.t) :
  Jwt.Claims (generateToken env now user)
  = Jwt.mkClaims (Some (User.ID user)) (Some (now + 24 * 3600)).
Proof. reflexivity. Qed.


(** A token whose signature was not made with the key of
    [getUserIDFromToken] is refused. *)
Lemma foreign_signature_refused (env : Env) (now : Time) (t : Jwt.Token)
    (b : bool) :
  Jwt.Sig t <> Jwt.mkSig (Jwt.Method t) (env "JWT_SECRET_KEY") (Jwt.Claims t) ->
  getUserIDFromToken env now (HToken b t) = inl ErrInvalidToken.
Proof.
  intros Hs. unfold getUserIDFromToken, Jwt.Valid.
  rewrite (bool_decide_eq_false_2 _ Hs), andb_false_r. reflexivity.
Qed.

(** C2 (the code departs from the specification).  [generateToken] signs
    with the key of [JWT_SECRET], [getUserIDFromToken] verifies with the
    key of [JWT_SECRET_KEY]: when the two variables differ, every issued
    token is refused by the note routes, expired or not. *)
Theorem C2_issued_token_refused_when_variables_differ :
  forall (env : Env) (now now' : Time) (user : User.t) (b : bool),
    env "JWT_SECRET_KEY" <> env "JWT_SECRET" ->
    getUserIDFromToken env now' (HToken b (generateToken env now user))
    = inl ErrInvalidToken.
Proof.
  intros env now now' user b Hk. apply foreign_signature_refused.
  simpl. unfold secretKey. intros Heq. inversion Heq. congruence.
Qed.

(** Under the environment of [docker-compose.yml] the token of a login is
    refused by the note routes one second later. *)
Lemma C2_compose_login_token_refused :
  getUserIDFromToken env_compose 1001
    (HToken true (generateToken env_compose 1000 alice))
  = inl ErrInvalidToken.
Proof.
  apply (C2_issued_token_refused_when_variables_differ
           env_compose 1000 1001 alice true).
  vm_compute. discriminate.
Defined.

(** ** Accounts that no longer exist *)

(** The account of [alice] is soft-deleted, no user row is visible under
    her id, and her list request is answered 200 with her notes. *)
Lemma deleted_account_lists_notes :
  Gorm.First (fun r => User.ID r =? 1)
             (users (database world_account_deleted))
  = inl Gorm.ErrRecordNotFound
  /\ getUserIDFromToken env_both 1600 (alice_bearer env_both) = inr 1
  /\ fst (getNotes env_both world_account_deleted 1600
            (mkRequest (alice_bearer env_both) "" None))
     = mkReply StatusOK (NotesJSON [note_T]).
Proof. vm_compute. repeat split; reflexivity. Qed.

(** Once the token is accepted, no note handler answers 401. *)
Lemma note_handlers_never_unauthorized (env : Env) (w : World) (now : Time)
    (req : Request) (caller : Z) :
  getUserIDFromToken env now (Authorization req) = inr caller ->
  status (fst (getNotes env w now req)) = StatusOK
  /\ status (fst (createNote env w now req)) <> StatusUnauthorized
  /\ status (fst (updateNote env w now req)) <> StatusUnauthorized
  /\ status (fst (deleteNote env w now req)) <> StatusUnauthorized.
Proof.
  intros Hu. repeat split.
  - unfold getNotes. rewrite Hu.
    destruct (LoadNotes w caller) as [[ns err] w1].
    destruct (cache_miss (ns, err)).
    + destruct (SaveNotes _ _ _ _). reflexivity.
    + reflexivity.
  - unfold createNote. rewrite Hu.
    destruct (body req) as [note|]; [|discriminate].
    destruct (negb _); [discriminate|].
    destruct (Gorm.Create _ _ _) as [e|[v rows]]; discriminate.
  - unfold updateNote. rewrite Hu.
    destruct (ParseUint32 _) as [noteID|]; [|discriminate].
    destruct (body req) as [note|]; [|discriminate].
    destruct (negb _); [discriminate|].
    destruct (findOwned _ _ _) as [[| |]|old]; try discriminate.
    destruct (Gorm.Save _ _ _) as [e|[v rows]]; discriminate.
  - unfold deleteNote. rewrite Hu.
    destruct (ParseUint32 _) as [noteID|]; [|discriminate].
    destruct (findOwned _ _ _) as [[| |]|old]; try discriminate.
    destruct (Gorm.Save _ _ _) as [e|[v rows]]; discriminate.
Qed.

(** C3 (the code departs from the specification).  The account is looked
    up again by [AuthMiddleware] only: with a token it accepts whose user
    has no visible row, it answers 401 "User not found" and does not call
    the next handler.  The four note handlers authenticate with
    [getUserIDFromToken] alone: once it accepts the token they never
    answer 401, whatever the users table holds, and a list is answered
    200. *)
Theorem C3_account_checked_by_middleware_only :
  forall (env : Env) (w : World) (now : Time) (t : Jwt.Token) (userID : Z),
    Jwt.Valid (secretKey env) now t = true ->
    Jwt.user_id (Jwt.Claims t) = Some userID ->
    (forall u, In u (users (database w)) -> User.ID u = userID ->
               User.DeletedAt u <> None) ->
    AuthMiddleware env w now (HToken false t)
    = Respond (mkReply StatusUnauthorized (ErrorJSON "User not found"))
    /\ forall (req : Request) (caller : Z),
        getUserIDFromToken env now (Authorization req) = inr caller ->
        status (fst (getNotes env w now req)) = StatusOK
        /\ status (fst (createNote env w now req)) <> StatusUnauthorized
        /\ status (fst (updateNote env w now req)) <> StatusUnauthorized
        /\ status (fst (deleteNote env w now req)) <> StatusUnauthorized.
Proof.
  intros env w now t userID Hv Hc Hgone. split.
  - unfold AuthMiddleware. rewrite Hv, Hc.
    destruct (Gorm.First _ _) as [e|u] eqn:Hf; [reflexivity|].
    apply First_inr in Hf. destruct Hf as [Hin Hvis].
    unfold Gorm.visible in Hvis. simpl in Hvis.
    apply andb_prop in Hvis. destruct Hvis as [Hid Hnull].
    apply Z.eqb_eq in Hid. specialize (Hgone u Hin Hid).
    destruct (User.DeletedAt u); [discriminate|congruence].
  - intros req caller Hu.
    exact (note_handlers_never_unauthorized env w now req caller Hu).
Qed.

(** The soft-deleted account of [alice]: refused by the middleware, served
    by the list handler. *)
Lemma C3_deleted_account_at_both_doors :
  AuthMiddleware env_both world_account_deleted 1600
    (HToken false (generateToken env_both 1000 alice))
  = Respond (mkReply StatusUnauthorized (ErrorJSON "User not found"))
  /\ status (fst (getNotes env_both world_account_deleted 1600
                    (mkRequest (alice_bearer env_both) "" None)))
     = StatusOK.
Proof.
  assert (H := C3_account_checked_by_middleware_only env_both
                 world_account_deleted 1600
                 (generateToken env_both 1000 alice) 1).
  destruct H as [Hm Hn]; [reflexivity | reflexivity | |].
  - intros u Hin Hid. vm_compute in Hin. destruct Hin as [<-|[]].
    discriminate.
  - split; [exact Hm|].
    apply (Hn (mkRequest (alice_bearer env_both) "" None) 1). reflexivity.
Defined.

(** ** Registration and login *)

(** [Create] fills in key and stamps of a user and nothing else. *)
Lemma fill_User (now : Time) (rows : list User.t) (u : User.t) :
  (User.ID u = 0 ->
   User.ID (Gorm.fill now rows u) = Gorm.next_id (map User.ID rows))
  /\ User.Username (Gorm.fill now rows u) = User.Username u
  /\ User.Email (Gorm.fill now rows u) = User.Email u
  /\ User.Password (Gorm.fill now rows u) = User.Password u.
Proof.
  unfold Gorm.fill. simpl.
  destruct (IsZero (User.CreatedAt u)); simpl;
    match goal with |- context [IsZero ?x] => destruct (IsZero x) end; simpl;
    match goal with |- context [?a =? 0] => destruct (a =? 0) eqn:E end;
    simpl; repeat split; auto; intros Hz; rewrite Hz in E; discriminate.
Qed.

(** The lookup by username finds an active user exactly when one exists. *)
Lemma username_lookup (name : string) (rows : list User.t) :
  (exists r, Gorm.First (fun r => String.eqb (User.Username r) name) rows
             = inr r)
  <-> exists r, In r rows /\ User.Username r = name
                /\ User.DeletedAt r = None.
Proof.
  split.
  - intros [r Hf]. apply First_inr in Hf. destruct Hf as [Hin Hvis].
    unfold Gorm.visible in Hvis. simpl in Hvis.
    apply andb_prop in Hvis. destruct Hvis as [Hn Hd].
    apply String.eqb_eq in Hn. exists r. repeat split; auto.
    destruct (User.DeletedAt r); [discriminate|reflexivity].
  - intros (r & Hin & Hn & Hd).
    apply (First_exists _ rows r Hin).
    unfold Gorm.visible. simpl. rewrite Hn, Hd, String.eqb_refl. reflexivity.
Qed.

Lemma username_lookup_none (name : string) (rows : list User.t) :
  ~ (exists r, In r rows /\ User.Username r = name
               /\ User.DeletedAt r = None) ->
  Gorm.First (fun r => String.eqb (User.Username r) name) rows
  = inl Gorm.ErrRecordNotFound.
Proof.
  intros Hno.
  destruct (Gorm.First _ rows) as [e|r] eqn:Hf.
  - apply First_inl in Hf. destruct Hf as [-> _]. reflexivity.
  - exfalso. apply Hno. apply username_lookup. eauto.
Qed.

(** [bob] registers with the e-mail address of [alice]: the username is
    free, the INSERT breaks the unique index, and the answer is 500
    "Unable to register user". *)
Lemma duplicate_email_is_a_storage_error :
  ValidateUser sample_isEmail (candidate "bob" "a@x.com") = Valid
  /\ Register sample_isEmail sample_hash world_alice 2000
       (Some (candidate "bob" "a@x.com"))
     = Replied (mkReply StatusInternalServerError
                        (Text "Unable to register user"))
               world_alice.
Proof. vm_compute. split; reflexivity. Qed.

(** C8 (the code departs from the specification).  [Register] looks up
    the username only.  For a candidate that passes validation and whose
    password hashes: an active user with the same username gives 400
    "Username already exists"; with the username free, a row with the same
    e-mail address gives 500 "Unable to register user" and nothing is
    stored; when no row shares username or address, the user is appended
    with the hashed password and answered 201. *)
Theorem C8_register_checks_the_username_only :
  forall (isEmail : string -> bool) (hash : string -> option string)
         (w : World) (now : Time) (user : User.t) (h : string),
    ValidateUser isEmail user = Valid ->
    hash (User.Password user) = Some h ->
    let rows := users (database w) in
    let name_active :=
      exists r, In r rows /\ User.Username r = User.Username user
                /\ User.DeletedAt r = None in
    (name_active ->
     Register isEmail hash w now (Some user)
     = Replied (mkReply StatusBadRequest (Text "Username already exists")) w)
    /\ (~ name_active ->
        (exists r, In r rows /\ User.Email r = User.Email user) ->
        Register isEmail hash w now (Some user)
        = Replied (mkReply StatusInternalServerError
                           (Text "Unable to register user")) w)
    /\ (User.ID user = 0 ->
        (forall r, In r rows ->
                   User.Username r <> User.Username user
                   /\ User.Email r <> User.Email user) ->
        exists stored,
          Register isEmail hash w now (Some user)
          = Replied (mkReply StatusCreated (UserJSON stored))
                    (mkWorld (with_users (rows ++ [stored]) (database w))
                             (notesCache w))
          /\ User.ID stored = Gorm.next_id (map User.ID rows)
          /\ User.Username stored = User.Username user
          /\ User.Email stored = User.Email user
          /\ User.Password stored = h).
Proof.
  intros isEmail hash w now user h Hv Hh rows name_active.
  unfold Register. rewrite Hv.
  destruct (fill_User now rows (User.set_Password h user))
    as (Hfid & Hfn & Hfe & Hfp).
  simpl in Hfid, Hfn, Hfe, Hfp.
  split; [|split].
  - intros Hact. apply username_lookup in Hact. destruct Hact as [r Hf].
    fold rows. rewrite Hf. reflexivity.
  - intros Hfree (r & Hin & Hmail).
    fold rows. rewrite (username_lookup_none _ rows Hfree), Hh.
    unfold Gorm.Create. fold rows.
    assert (Hex : existsb
              (fun r0 => (Gorm.pk r0
                          =? Gorm.pk (Gorm.fill now rows
                                        (User.set_Password h user)))
                         || Gorm.clash r0 (Gorm.fill now rows
                                             (User.set_Password h user)))
              rows = true).
    { apply existsb_exists. exists r. split; [exact Hin|].
      simpl. rewrite Hfe, Hmail, String.eqb_refl, !orb_true_r. reflexivity. }
    rewrite Hex. reflexivity.
  - intros Hid Hnone.
    assert (Hfree : ~ name_active).
    { intros (r & Hin & Hn & _). destruct (Hnone r Hin) as [Hne _].
      contradiction. }
    fold rows. rewrite (username_lookup_none _ rows Hfree), Hh.
    unfold Gorm.Create. fold rows.
    set (stored := Gorm.fill now rows (User.set_Password h user)).
    fold stored in Hfid, Hfn, Hfe, Hfp. specialize (Hfid Hid).
    assert (Hex : existsb
              (fun r0 => (Gorm.pk r0 =? Gorm.pk stored)
                         || Gorm.clash r0 stored) rows = false).
    { apply not_true_is_false. intros Hex. apply existsb_exists in Hex.
      destruct Hex as (r & Hin & Hr). simpl in Hr.
      destruct (Hnone r Hin) as [Hn He].
      assert (User.ID r < Gorm.next_id (map User.ID rows))
        by (apply next_id_gt, in_map, Hin).
      apply orb_prop in Hr. destruct Hr as [Hr|Hr].
      - apply Z.eqb_eq in Hr. lia.
      - apply orb_prop in Hr. destruct Hr as [Hr|Hr];
          apply String.eqb_eq in Hr; congruence. }
    rewrite Hex. exists stored. auto.
Qed.

(** [bob] with the address of [alice], after the theorem. *)
Lemma C8_bob_with_the_address_of_alice :
  Register sample_isEmail sample_hash world_alice 2000
    (Some (candidate "bob" "a@x.com"))
  = Replied (mkReply StatusInternalServerError
                     (Text "Unable to register user"))
            world_alice.
Proof.
  apply (C8_register_checks_the_username_only sample_isEmail sample_hash
           world_alice 2000 (candidate "bob" "a@x.com")
           "$2a$10$password123");
    [reflexivity | reflexivity | |].
  - intros (r & Hin & Hn & _). vm_compute in Hin.
    destruct Hin as [<-|[]]. discriminate Hn.
  - exists alice. split; [left|]; reflexivity.
Defined.

(** C9.  A login with a username no active user has, and a login with the
    password of an existing user wrong, are answered alike: status 401
    with the error "Invalid username or password", whatever the database,
    the environment and the time. *)
Theorem C9_login_failures_are_alike :
  forall (compare : string -> string -> bool) (env1 env2 : Env)
         (w1 w2 : World) (now1 now2 : Time)
         (unknown wrong user : User.t),
    (forall r, In r (users (database w1)) ->
               User.Username r = User.Username unknown ->
               User.DeletedAt r <> None) ->
    Gorm.First (fun r => String.eqb (User.Username r) (User.Username wrong))
               (users (database w2)) = inr user ->
    compare (User.Password user) (User.Password wrong) = false ->
    Login compare env1 w1 now1 (Some unknown)
    = mkReply StatusUnauthorized (ErrorJSON "Invalid username or password")
    /\ Login compare env2 w2 now2 (Some wrong)
       = Login compare env1 w1 now1 (Some unknown).
Proof.
  intros compare env1 env2 w1 w2 now1 now2 unknown wrong user Hun Hf Hc.
  assert (H1 : Login compare env1 w1 now1 (Some unknown)
               = mkReply StatusUnauthorized
                         (ErrorJSON "Invalid username or password")).
  { unfold Login. rewrite username_lookup_none; [reflexivity|].
    intros (r & Hin & Hn & Hd). exact (Hun r Hin Hn Hd). }
  split; [exact H1|]. rewrite H1.
  unfold Login. rewrite Hf, Hc. reflexivity.
Qed.

(** [alice] with a wrong password, and a name nobody has. *)
Lemma C9_wrong_password_and_unknown_name :
  Login sample_compare env_both world_alice 3000
        (Some (credentials "mallory" "password123"))
  = mkReply StatusUnauthorized (ErrorJSON "Invalid username or password")
  /\ Login sample_compare env_both world_alice 3000
           (Some (credentials "alice" "letmein"))
     = Login sample_compare env_both world_alice 3000
             (Some (credentials "mallory" "password123")).
Proof.
  apply (C9_login_failures_are_alike sample_compare env_both env_both
           world_alice world_alice 3000 3000
           (credentials "mallory" "password123")
           (credentials "alice" "letmein") alice);
    [| reflexivity | reflexivity].
  intros r Hin Hn. vm_compute in Hin. destruct Hin as [<-|[]].
  discriminate Hn.
Defined.

(** ** Listing and soft delete *)

Lemma In_fetchUserNotes (db : DB) (userID : Z) (n : Note.t) :
  In n (fetchUserNotes db userID)
  <-> In n (notes db) /\ Note.UserID n = userID /\ Note.DeletedAt n = None.
Proof.
  unfold fetchUserNotes, Gorm.Find, Gorm.visible. rewrite filter_In. simpl.
  split.
  - intros [Hin Hv]. apply andb_prop in Hv. destruct Hv as [Hu Hd].
    apply Z.eqb_eq in Hu. repeat split; auto.
    destruct (Note.DeletedAt n); [discriminate|reflexivity].
  - intros (Hin & Hu & Hd). split; [exact Hin|].
    rewrite Hu, Hd, Z.eqb_refl. reflexivity.
Qed.


(** A successful [deleteNote] answers 204 and stamps the row: the note
    leaves the list of its owner, the table keeps its rows, and the stamped
    row is in it. *)
Lemma deleteNote_soft_deletes (env : Env) (w : World) (now : Time)
    (req : Request) (noteID userID : Z) (old : Note.t) :
  ParseUint32 (param_id req) = Some noteID ->
  noteID <> 0 ->
  getUserIDFromToken env now (Authorization req) = inr userID ->
  findOwned (database w) noteID userID = inr old ->
  exists rows,
    deleteNote env w now req
    = (mkReply StatusNoContent NoContent,
       mkWorld (with_notes rows (database w)) ∅)
    /\ (forall n, In n (fetchUserNotes (with_notes rows (database w)) userID) ->
                  Note.ID n <> noteID)
    /\ length rows = length (notes (database w))
    /\ In (Note.set_UpdatedAt now (Note.set_DeletedAt (Some now) old)) rows.
Proof.
  intros Hp Hnz Hu Hf. unfold deleteNote. rewrite Hp, Hu, Hf.
  apply First_inr in Hf. destruct Hf as [Hin Hvis].
  unfold Gorm.visible in Hvis. simpl in Hvis.
  apply andb_prop in Hvis. destruct Hvis as [Hc Hnull].
  apply andb_prop in Hc. destruct Hc as [Hid _]. apply Z.eqb_eq in Hid.
  assert (Hd : Note.DeletedAt old = None)
    by (destruct (Note.DeletedAt old); [discriminate|reflexivity]).
  rewrite (Save_Note_update now _ (notes (database w)) old);
    simpl; auto; [|lia].
  set (v := Note.set_UpdatedAt now (Note.set_DeletedAt (Some now) old)).
  set (f := fun r : Note.t =>
              if (Note.ID r =? Note.ID old) && Gorm.is_null (Note.DeletedAt r)
              then v else r).
  exists (map f (notes (database w))). split; [reflexivity|]. split; [|split].
  - intros n Hn. apply In_fetchUserNotes in Hn.
    destruct Hn as (Hn & _ & Hact). simpl in Hn.
    apply in_map_iff in Hn. destruct Hn as (r & Hr & _). subst f. simpl in Hr.
    destruct ((Note.ID r =? Note.ID old) && Gorm.is_null (Note.DeletedAt r))
      eqn:E.
    + subst n. discriminate Hact.
    + subst n. rewrite Hact in E. simpl in E. rewrite andb_true_r in E.
      apply Z.eqb_neq in E. congruence.
  - apply length_map.
  - apply in_map_iff. exists old. split; [|exact Hin].
    subst f. simpl. rewrite Z.eqb_refl, Hd. reflexivity.
Qed.

(** [alice] deletes her note: see [world_listed]. *)
Lemma deleteNote_soft_deletes_alice :
  exists rows,
    deleteNote env_both world_listed 1003
      (mkRequest (alice_bearer env_both) "1" None)
    = (mkReply StatusNoContent NoContent,
       mkWorld (with_notes rows (database world_listed)) ∅)
    /\ (forall n,
          In n (fetchUserNotes (with_notes rows (database world_listed)) 1) ->
          Note.ID n <> 1)
    /\ length rows = length (notes (database world_listed))
    /\ In (Note.set_UpdatedAt 1003 (Note.set_DeletedAt (Some 1003) note_T))
          rows.
Proof.
  apply (deleteNote_soft_deletes env_both world_listed 1003
           (mkRequest (alice_bearer env_both) "1" None) 1 1 note_T);
    [reflexivity | lia | reflexivity | vm_compute; reflexivity].
Defined.


(** A token signed under another key at the note routes. *)
Lemma foreign_signature_refused_env_both :
  getUserIDFromToken env_both 1001
    (HToken true (Jwt.SignedString Jwt.HS256
                    (Jwt.mkClaims (Some 1) (Some 90000)) "guess"))
  = inl ErrInvalidToken.
Proof.
  apply (foreign_signature_refused env_both 1001
           (Jwt.SignedString Jwt.HS256
              (Jwt.mkClaims (Some 1) (Some 90000)) "guess") true).
  vm_compute. discriminate.
Defined.


(** * The rest of the cache layer, the handlers, the routes and the
      query helpers *)

(** ** Queries, continued *)

Section MoreGormFacts.
Context {A : Type} `{Gorm.Schema A}.

Lemma least_min (rows : list A) (a : A) :
  Gorm.least rows = Some a -> forall r, In r rows -> Gorm.pk a <= Gorm.pk r.
Proof.
  revert a. induction rows as [|x rows IH]; simpl; intros a Ha r Hr.
  - destruct Hr.
  - destruct (Gorm.least rows) as [b|] eqn:E.
    + destruct (Gorm.pk x <=? Gorm.pk b) eqn:L; inversion Ha; subst.
      * apply Z.leb_le in L. destruct Hr as [<-|Hr]; [lia|].
        specialize (IH b eq_refl r Hr). lia.
      * apply Z.leb_gt in L. destruct Hr as [<-|Hr]; [lia|].
        exact (IH a eq_refl r Hr).
    + inversion Ha; subst. apply least_None in E. subst rows.
      destruct Hr as [<-|[]]. lia.
Qed.

(** [First] returns a row of least key among those the query sees. *)
Lemma First_min (cond : A -> bool) (rows : list A) (a : A) :
  Gorm.First cond rows = inr a ->
  forall r, In r rows -> Gorm.visible cond r = true -> Gorm.pk a <= Gorm.pk r.
Proof.
  unfold Gorm.First. destruct (Gorm.least _) as [b|] eqn:E; [|discriminate].
  intros Ha r Hr Hv. inversion Ha; subst.
  apply (least_min _ _ E). apply filter_In. auto.
Qed.

Lemma filter_none (p : A -> bool) (rows : list A) :
  (forall r, In r rows -> p r = false) -> List.filter p rows = [].
Proof.
  induction rows as [|x rows IH]; simpl; intros Hall; [reflexivity|].
  rewrite (Hall x) by auto. apply IH. intros r Hr. apply Hall. auto.
Qed.

(** A row appended to a table in which the query saw nothing is the row
    the query finds. *)
Lemma First_appended (cond : A -> bool) (rows : list A) (v : A) :
  (forall r, In r rows -> Gorm.visible cond r = false) ->
  Gorm.visible cond v = true ->
  Gorm.First cond (rows ++ [v]) = inr v.
Proof.
  intros Hall Hv. unfold Gorm.First.
  rewrite List.filter_app, (filter_none _ rows Hall). simpl. rewrite Hv.
  reflexivity.
Qed.

Lemma filter_map_kept (p : A -> bool) (f : A -> A) (rows : list A) :
  (forall r, In r rows -> f r = r \/ (p r = false /\ p (f r) = false)) ->
  List.filter p (map f rows) = List.filter p rows.
Proof.
  induction rows as [|x rows IH]; simpl; intros Hall; [reflexivity|].
  rewrite IH by (intros r Hr; apply Hall; auto).
  destruct (Hall x (or_introl eq_refl)) as [->|[-> ->]]; reflexivity.
Qed.

Lemma First_same_filter (cond : A -> bool) (rows rows' : list A) :
  List.filter (Gorm.visible cond) rows' = List.filter (Gorm.visible cond) rows ->
  Gorm.First cond rows' = Gorm.First cond rows.
Proof. unfold Gorm.First. intros ->. reflexivity. Qed.

Lemma filter_filter (p q : A -> bool) (l : list A) :
  List.filter q (List.filter p l) = List.filter (fun x => p x && q x) l.
Proof.
  induction l as [|x l IH]; simpl; [reflexivity|].
  destruct (p x); simpl; [destruct (q x); rewrite IH|]; auto.
Qed.

(** What a successful [Create] has done: the value was filled in and
    appended, and no row had its key or clashed with it. *)
Lemma Create_inr (now : Time) (v v' : A) (rows rows' : list A) :
  Gorm.Create now v rows = inr (v', rows') ->
  v' = Gorm.fill now rows v
  /\ rows' = rows ++ [v']
  /\ forall r, In r rows ->
       Gorm.pk r <> Gorm.pk v' /\ Gorm.clash r v' = false.
Proof.
  unfold Gorm.Create.
  destruct (existsb _ rows) eqn:E; [discriminate|].
  intros Heq; inversion Heq; subst. repeat split.
  - intros Hpk. assert (X : existsb
       (fun r0 => (Gorm.pk r0 =? Gorm.pk (Gorm.fill now rows v))
                  || Gorm.clash r0 (Gorm.fill now rows v)) rows = true).
    { apply existsb_exists. exists r. split; [assumption|].
      rewrite Hpk, Z.eqb_refl. reflexivity. }
    congruence.
  - apply not_true_is_false. intros Hc.
    assert (X : existsb
       (fun r0 => (Gorm.pk r0 =? Gorm.pk (Gorm.fill now rows v))
                  || Gorm.clash r0 (Gorm.fill now rows v)) rows = true).
    { apply existsb_exists. exists r. split; [assumption|].
      rewrite Hc, orb_true_r. reflexivity. }
    congruence.
Qed.

End MoreGormFacts.

(** Rows of a table with distinct keys are told apart by their key. *)
Lemma NoDup_map_eq {A B} (f : A -> B) (l : list A) (a b : A) :
  List.NoDup (map f l) -> In a l -> In b l -> f a = f b -> a = b.
Proof.
  induction l as [|x l IH]; simpl; intros Hnd Ha Hb Hf; [destruct Ha|].
  inversion Hnd as [|? ? Hnot Hnd']; subst.
  destruct Ha as [<-|Ha], Hb as [<-|Hb]; auto.
  - exfalso. apply Hnot. rewrite Hf. apply in_map. exact Hb.
  - exfalso. apply Hnot. rewrite <- Hf. apply in_map. exact Ha.
Qed.

(** ** The two tiers of the cache *)

(** [Save] of a cache row whose key is that of a visible row. *)
Lemma Save_Cache_update (now : Time) (v : Cache.t) (rows : list Cache.t)
    (old : Cache.t) :
  Cache.ID v <> 0 ->
  In old rows ->
  Cache.ID old = Cache.ID v ->
  Cache.DeletedAt old = None ->
  Gorm.Save now v rows
  = inr (Cache.set_UpdatedAt now v,
         map (fun r => if (Cache.ID r =? Cache.ID v)
                          && Gorm.is_null (Cache.DeletedAt r)
                       then Cache.set_UpdatedAt now v else r) rows).
Proof.
  intros Hnz Hin Hid Hnull. unfold Gorm.Save. simpl.
  destruct (Cache.ID v =? 0) eqn:E; [apply Z.eqb_eq in E; contradiction|].
  unfold Gorm.visible. simpl.
  assert (Hex : existsb (fun r => (Cache.ID r =? Cache.ID v)
                                  && Gorm.is_null (Cache.DeletedAt r)) rows
                = true).
  { apply existsb_exists. exists old. split; [exact Hin|].
    rewrite Hid, Z.eqb_refl, Hnull. reflexivity. }
  rewrite Hex. reflexivity.
Qed.

(** [Create] of the row [SaveNotes] builds: key and stamps are filled in
    and the row is appended. *)
Lemma Create_Cache_fresh (now : Time) (userID : Z) (ns : list Note.t)
    (e : Time) (rows : list Cache.t) :
  exists id,
    Gorm.Create now (Cache.mk 0 zero_time zero_time None userID ns e) rows
    = inr (Cache.mk id now now None userID ns e,
           rows ++ [Cache.mk id now now None userID ns e]).
Proof.
  exists (Gorm.next_id (map Cache.ID rows)).
  unfold Gorm.Create, Gorm.fill. simpl.
  replace (IsZero zero_time) with true by reflexivity. simpl.
  assert (Hex : existsb
            (fun r => (Cache.ID r =? Gorm.next_id (map Cache.ID rows)) || false)
            rows = false).
  { apply not_true_is_false. intros Hex. apply existsb_exists in Hex.
    destruct Hex as (r & Hin & Hr). rewrite orb_false_r in Hr.
    apply Z.eqb_eq in Hr.
    assert (Cache.ID r < Gorm.next_id (map Cache.ID rows))
      by (apply next_id_gt, in_map, Hin).
    lia. }
  rewrite Hex. reflexivity.
Qed.

Lemma user_row_visible (userID : Z) (c : Cache.t) :
  Gorm.visible (fun c => Cache.UserID c =? userID) c = true
  <-> Cache.UserID c = userID /\ Cache.DeletedAt c = None.
Proof.
  unfold Gorm.visible. simpl. rewrite andb_true_iff, Z.eqb_eq.
  destruct (Cache.DeletedAt c); simpl; split; intros [? ?]; split;
    auto; discriminate.
Qed.

(** The cache table after [SaveNotes]: the row of the user is found and
    holds the notes, with an expiry a day ahead. *)
Lemma SaveNotes_row (w : World) (now : Time) (userID : Z) (ns : list Note.t) :
  (forall c, In c (caches (database w)) -> Cache.ID c <> 0) ->
  exists c,
    Gorm.First (fun c => Cache.UserID c =? userID)
               (caches (database (snd (SaveNotes w now userID ns))))
    = inr c
    /\ Cache.Notes c = ns /\ Cache.ExpiryDate c = now + day.
Proof.
  intros Hkeys. unfold SaveNotes.
  destruct (Gorm.First _ (caches (database w))) as [e|c] eqn:Hf.
  - apply First_inl in Hf. destruct Hf as [-> Hall].
    destruct (Create_Cache_fresh now userID ns (now + day)
                (caches (database w))) as [id ->].
    simpl. exists (Cache.mk id now now None userID ns (now + day)).
    split; [|split; reflexivity].
    apply First_appended; [exact Hall|]. apply user_row_visible. auto.
  - pose proof (First_min _ _ _ Hf) as Hmin.
    apply First_inr in Hf. destruct Hf as [Hin Hvis].
    apply user_row_visible in Hvis. destruct Hvis as [Hu Hd].
    rewrite (Save_Cache_update now _ (caches (database w)) c);
      simpl; auto.
    set (v := Cache.set_UpdatedAt now
                (Cache.set_ExpiryDate (now + day) (Cache.set_Notes ns c))).
    set (f := fun r : Cache.t =>
                if (Cache.ID r =? Cache.ID c) && Gorm.is_null (Cache.DeletedAt r)
                then v else r).
    assert (Hv : Gorm.visible (fun c => Cache.UserID c =? userID) v = true)
      by (apply user_row_visible; auto).
    assert (Hinv : In v (map f (caches (database w)))).
    { apply in_map_iff. exists c. split; [|exact Hin].
      subst f. simpl. rewrite Z.eqb_refl, Hd. reflexivity. }
    destruct (Gorm.First (fun c => Cache.UserID c =? userID)
                (map f (caches (database w)))) as [e|c'] eqn:Hf'.
    + apply First_inl in Hf'. destruct Hf' as [_ Hall].
      rewrite (Hall v Hinv) in Hv. discriminate.
    + exists c'. split; [reflexivity|].
      pose proof (First_min _ _ _ Hf' v Hinv Hv) as Hle. simpl in Hle.
      apply First_inr in Hf'. destruct Hf' as [Hin' Hvis'].
      apply in_map_iff in Hin'. destruct Hin' as (r & Hr & Hrin).
      subst f. simpl in Hr.
      destruct ((Cache.ID r =? Cache.ID c) && Gorm.is_null (Cache.DeletedAt r))
        eqn:E.
      * subst c'. split; reflexivity.
      * subst c'. exfalso.
        pose proof (Hmin r Hrin Hvis') as Hge. simpl in Hge.
        apply user_row_visible in Hvis'. destruct Hvis' as [_ Hdr].
        rewrite Hdr in E. simpl in E. rewrite andb_true_r in E.
        apply Z.eqb_neq in E. lia.
Qed.

(** [SaveNotes] writes the cache table and [notesCache] only. *)
Lemma SaveNotes_tables (w : World) (now : Time) (userID : Z)
    (ns : list Note.t) :
  notes (database (snd (SaveNotes w now userID ns))) = notes (database w)
  /\ users (database (snd (SaveNotes w now userID ns))) = users (database w)
  /\ notesCache (snd (SaveNotes w now userID ns))
     = <[userID := ns]> (notesCache w).
Proof.
  unfold SaveNotes.
  destruct (Gorm.First _ _) as [[| |]|c]; simpl; auto;
    match goal with
    | |- context [Gorm.Save ?a ?b ?c] => destruct (Gorm.Save a b c) as [?|[? ?]]
    | |- context [Gorm.Create ?a ?b ?c] =>
        destruct (Gorm.Create a b c) as [?|[? ?]]
    end; simpl; auto.
Qed.

Lemma LoadNotes_database (w : World) (userID : Z) :
  database (snd (LoadNotes w userID)) = database w.
Proof.
  unfold LoadNotes. destruct (notesCache w !! userID); [reflexivity|].
  destruct (Gorm.First _ _); reflexivity.
Qed.

(** What [LoadNotes] returns without an error is, afterwards, the entry of
    the user in [notesCache]. *)
Lemma LoadNotes_entry (w : World) (userID : Z) (ns : list Note.t) :
  fst (LoadNotes w userID) = (ns, None) ->
  notesCache (snd (LoadNotes w userID)) !! userID = Some ns.
Proof.
  unfold LoadNotes. destruct (notesCache w !! userID) as [ns'|] eqn:E.
  - simpl. intros Heq. inversion Heq; subst. exact E.
  - destruct (Gorm.First _ _) as [e|c]; simpl; [discriminate|].
    intros Heq. inversion Heq; subst. apply lookup_insert_eq.
Qed.

Lemma LoadNotes_hit (w : World) (userID : Z) (ns : list Note.t) :
  notesCache w !! userID = Some ns -> LoadNotes w userID = ((ns, None), w).
Proof. intros E. unfold LoadNotes. rewrite E. reflexivity. Qed.

(** Round trip through the cache.  In a cache table whose keys are not
    zero (GORM's keys start at 1), the notes [SaveNotes] stores for a user
    are the notes [LoadNotes] returns for him, without an error: at once,
    from [notesCache], and in a fresh process ([notesCache] empty), from
    the row of the table. *)
Theorem SaveNotes_LoadNotes_round_trip :
  forall (w : World) (now : Time) (userID : Z) (ns : list Note.t),
    (forall c, In c (caches (database w)) -> Cache.ID c <> 0) ->
    fst (LoadNotes (snd (SaveNotes w now userID ns)) userID) = (ns, None)
    /\ fst (LoadNotes
              (mkWorld (database (snd (SaveNotes w now userID ns))) ∅) userID)
       = (ns, None).
Proof.
  intros w now userID ns Hkeys. split.
  - rewrite (LoadNotes_hit _ userID ns); [reflexivity|].
    destruct (SaveNotes_tables w now userID ns) as (_ & _ & ->).
    apply lookup_insert_eq.
  - destruct (SaveNotes_row w now userID ns Hkeys) as (c & Hf & Hn & _).
    rewrite (LoadNotes_row _ userID c); [simpl; rewrite Hn; reflexivity | |].
    + apply lookup_empty.
    + exact Hf.
Qed.

(** [alice] has listed ([world_listed] holds her row with the note "T");
    the list with the changed title is saved over it and read back. *)
Lemma SaveNotes_LoadNotes_round_trip_alice :
  fst (LoadNotes (snd (SaveNotes world_listed 1004 1 [note_T2])) 1)
  = ([note_T2], None)
  /\ fst (LoadNotes
            (mkWorld (database (snd (SaveNotes world_listed 1004 1 [note_T2])))
                     ∅) 1)
     = ([note_T2], None).
Proof.
  apply (SaveNotes_LoadNotes_round_trip world_listed 1004 1 [note_T2]).
  intros c Hin. vm_compute in Hin. destruct Hin as [<-|[]]. discriminate.
Defined.

(** The rows of the cache table after [SaveNotes], as a query for the rows
    of one user sees them: those of another user are the same as before;
    those of the saving user are as many as before, and one when there was
    none. *)
Lemma SaveNotes_rows (w : World) (now : Time) (userID : Z)
    (ns : list Note.t) :
  List.NoDup (map Cache.ID (caches (database w))) ->
  (forall c, In c (caches (database w)) -> Cache.ID c <> 0) ->
  let rows := caches (database w) in
  let rows' := caches (database (snd (SaveNotes w now userID ns))) in
  (forall other, other <> userID ->
     List.filter (Gorm.visible (fun c => Cache.UserID c =? other)) rows'
     = List.filter (Gorm.visible (fun c => Cache.UserID c =? other)) rows)
  /\ Gorm.Count (fun c => Cache.UserID c =? userID) rows'
     = Z.max 1 (Gorm.Count (fun c => Cache.UserID c =? userID) rows).
Proof.
  intros Hnd Hkeys rows rows'. subst rows rows'. unfold SaveNotes.
  destruct (Gorm.First _ (caches (database w))) as [e|c] eqn:Hf.
  - apply First_inl in Hf. destruct Hf as [-> Hall].
    destruct (Create_Cache_fresh now userID ns (now + day)
                (caches (database w))) as [id ->].
    simpl. split.
    + intros other Hne. rewrite List.filter_app. simpl.
      replace (Gorm.visible (fun c => Cache.UserID c =? other)
                 (Cache.mk id now now None userID ns (now + day)))
        with false; [apply app_nil_r|].
      symmetry. apply not_true_is_false. intros Hv.
      apply user_row_visible in Hv. simpl in Hv. destruct Hv as [Hv _].
      congruence.
    + unfold Gorm.Count. rewrite List.filter_app, (filter_none _ _ Hall).
      simpl.
      replace (Gorm.visible (fun c => Cache.UserID c =? userID)
                 (Cache.mk id now now None userID ns (now + day)))
        with true; [reflexivity|].
      symmetry. apply user_row_visible. auto.
  - apply First_inr in Hf. destruct Hf as [Hin Hvis].
    pose proof Hvis as Hvis0.
    apply user_row_visible in Hvis. destruct Hvis as [Hu Hd].
    rewrite (Save_Cache_update now _ (caches (database w)) c);
      simpl; auto.
    set (v := Cache.set_UpdatedAt now
                (Cache.set_ExpiryDate (now + day) (Cache.set_Notes ns c))).
    set (f := fun r : Cache.t =>
                if (Cache.ID r =? Cache.ID c) && Gorm.is_null (Cache.DeletedAt r)
                then v else r).
    assert (Hfr : forall r, In r (caches (database w)) -> f r = r \/ r = c).
    { intros r Hr. subst f. simpl.
      destruct ((Cache.ID r =? Cache.ID c) && Gorm.is_null (Cache.DeletedAt r))
        eqn:E; [right|left; reflexivity].
      apply andb_prop in E. destruct E as [E _]. apply Z.eqb_eq in E.
      exact (NoDup_map_eq Cache.ID _ r c Hnd Hr Hin E). }
    assert (Hfc : f c = v).
    { subst f. simpl. rewrite Z.eqb_refl, Hd. reflexivity. }
    split.
    + intros other Hne. apply filter_map_kept. intros r Hr.
      destruct (Hfr r Hr) as [Hk|Hk]; [left; assumption|right]. subst r.
      rewrite Hfc. split; apply not_true_is_false; intros Hv;
        apply user_row_visible in Hv; simpl in Hv; destruct Hv as [Hv _];
        congruence.
    + unfold Gorm.Count.
      assert (Hlen : forall l : list Cache.t,
                 (forall r, In r l -> f r = r \/ r = c) ->
                 length (List.filter
                           (Gorm.visible (fun c => Cache.UserID c =? userID))
                           (map f l))
                 = length (List.filter
                             (Gorm.visible (fun c => Cache.UserID c =? userID))
                             l)).
      { induction l as [|x l IH]; simpl; intros Hl; [reflexivity|].
        assert (Hx : Gorm.visible (fun c => Cache.UserID c =? userID) (f x)
                     = Gorm.visible (fun c => Cache.UserID c =? userID) x).
        { destruct (Hl x (or_introl eq_refl)) as [Hk|Hk];
            [rewrite Hk; reflexivity|]. subst x.
          rewrite Hfc, Hvis0. apply user_row_visible. auto. }
        rewrite Hx.
        destruct (Gorm.visible _ x); simpl; rewrite IH; auto. }
      rewrite (Hlen _ Hfr).
      assert (Hpos : Nat.lt 0 (length (List.filter
                           (Gorm.visible (fun c => Cache.UserID c =? userID))
                           (caches (database w))))).
      { assert (X : In c (List.filter
                           (Gorm.visible (fun c => Cache.UserID c =? userID))
                           (caches (database w))))
          by (apply filter_In; auto).
        destruct (List.filter _ _); [destruct X|simpl; lia]. }
      lia.
Qed.

(** [SaveNotes] for one user leaves the cache of every other user as it
    was.  In a cache table with distinct, non-zero keys, what [LoadNotes]
    returns for another user is the same before and after, from
    [notesCache] and, in a fresh process, from the table. *)
Theorem SaveNotes_leaves_other_users :
  forall (w : World) (now : Time) (userID other : Z) (ns : list Note.t),
    List.NoDup (map Cache.ID (caches (database w))) ->
    (forall c, In c (caches (database w)) -> Cache.ID c <> 0) ->
    other <> userID ->
    fst (LoadNotes (snd (SaveNotes w now userID ns)) other)
    = fst (LoadNotes w other)
    /\ fst (LoadNotes
              (mkWorld (database (snd (SaveNotes w now userID ns))) ∅) other)
       = fst (LoadNotes (mkWorld (database w) ∅) other).
Proof.
  intros w now userID other ns Hnd Hkeys Hne.
  destruct (SaveNotes_rows w now userID ns Hnd Hkeys) as [Hother _].
  specialize (Hother other Hne). apply First_same_filter in Hother.
  destruct (SaveNotes_tables w now userID ns) as (_ & _ & Hm).
  split; unfold LoadNotes; simpl.
  - rewrite Hm, lookup_insert_ne by congruence.
    destruct (notesCache w !! other); [reflexivity|].
    rewrite Hother. clear Hother.
    destruct (Gorm.First _ (caches (database w))); reflexivity.
  - rewrite !lookup_empty, Hother. clear Hother.
    destruct (Gorm.First _ (caches (database w))); reflexivity.
Qed.

(** The notes of [bob] are saved next to the row of [alice]. *)
Lemma SaveNotes_leaves_other_users_alice :
  fst (LoadNotes (snd (SaveNotes world_listed 1006 2 [note_U])) 1)
  = fst (LoadNotes world_listed 1)
  /\ fst (LoadNotes
            (mkWorld (database (snd (SaveNotes world_listed 1006 2 [note_U])))
                     ∅) 1)
     = fst (LoadNotes (mkWorld (database world_listed) ∅) 1).
Proof.
  apply (SaveNotes_leaves_other_users world_listed 1006 2 1 [note_U]).
  - vm_compute. constructor; [intros []|constructor].
  - intros c Hin. vm_compute in Hin. destruct Hin as [<-|[]]. discriminate.
  - discriminate.
Defined.

(** [SaveNotes] updates the row of the user when there is one and inserts
    one when there is none: in a cache table with distinct, non-zero keys,
    the number of rows a query for the user sees is afterwards what it was,
    and 1 when it was 0; for every other user it does not change. *)
Theorem SaveNotes_keeps_one_row_per_user :
  forall (w : World) (now : Time) (userID : Z) (ns : list Note.t),
    List.NoDup (map Cache.ID (caches (database w))) ->
    (forall c, In c (caches (database w)) -> Cache.ID c <> 0) ->
    let count u db := Gorm.Count (fun c => Cache.UserID c =? u) (caches db) in
    count userID (database (snd (SaveNotes w now userID ns)))
    = Z.max 1 (count userID (database w))
    /\ forall other, other <> userID ->
         count other (database (snd (SaveNotes w now userID ns)))
         = count other (database w).
Proof.
  intros w now userID ns Hnd Hkeys count. subst count. simpl.
  destruct (SaveNotes_rows w now userID ns Hnd Hkeys) as [Hother Hown].
  split; [exact Hown|]. intros other Hne. unfold Gorm.Count.
  rewrite (Hother other Hne). reflexivity.
Qed.

(** [alice] has one row in [world_listed] and keeps one. *)
Lemma SaveNotes_keeps_one_row_per_user_alice :
  Gorm.Count (fun c => Cache.UserID c =? 1)
             (caches (database (snd (SaveNotes world_listed 1004 1 [note_T2]))))
  = Z.max 1 (Gorm.Count (fun c => Cache.UserID c =? 1)
                        (caches (database world_listed)))
  /\ forall other, other <> 1 ->
       Gorm.Count (fun c => Cache.UserID c =? other)
         (caches (database (snd (SaveNotes world_listed 1004 1 [note_T2]))))
       = Gorm.Count (fun c => Cache.UserID c =? other)
                    (caches (database world_listed)).
Proof.
  apply (SaveNotes_keeps_one_row_per_user world_listed 1004 1 [note_T2]).
  - vm_compute. constructor; [intros []|constructor].
  - intros c Hin. vm_compute in Hin. destruct Hin as [<-|[]]. discriminate.
Defined.

(** [LoadNotes] twice.  The second call returns what the first returned
    and changes nothing more; [LoadNotes] never changes the database, and
    what it returns for another user is not affected. *)
Theorem LoadNotes_again :
  forall (w : World) (userID : Z),
    LoadNotes (snd (LoadNotes w userID)) userID
    = (fst (LoadNotes w userID), snd (LoadNotes w userID))
    /\ database (snd (LoadNotes w userID)) = database w
    /\ forall other, other <> userID ->
         fst (LoadNotes (snd (LoadNotes w userID)) other)
         = fst (LoadNotes w other).
Proof.
  intros w userID. split; [|split].
  - unfold LoadNotes at 2 3 4.
    destruct (notesCache w !! userID) as [ns|] eqn:E.
    + simpl. apply LoadNotes_hit. exact E.
    + destruct (Gorm.First _ _) as [e|c] eqn:Hf; simpl.
      * unfold LoadNotes. rewrite E, Hf. reflexivity.
      * apply LoadNotes_hit. apply lookup_insert_eq.
  - apply LoadNotes_database.
  - intros other Hne. unfold LoadNotes at 2.
    destruct (notesCache w !! userID) as [ns|] eqn:E; [reflexivity|].
    destruct (Gorm.First _ _) as [e|c] eqn:Hf; [reflexivity|].
    unfold LoadNotes. simpl. rewrite lookup_insert_ne by congruence.
    destruct (notesCache w !! other); [reflexivity|]. clear Hf.
    destruct (Gorm.First (fun c => Cache.UserID c =? other)
                (caches (database w))); reflexivity.
Qed.

(** ** Listing twice *)

Lemma getNotes_tables (env : Env) (w : World) (now : Time) (req : Request) :
  users (database (snd (getNotes env w now req))) = users (database w)
  /\ notes (database (snd (getNotes env w now req))) = notes (database w).
Proof.
  unfold getNotes.
  destruct (getUserIDFromToken _ _ _) as [e|userID]; [auto|].
  pose proof (LoadNotes_database w userID) as Hd.
  destruct (LoadNotes w userID) as [[ns err] w1]. simpl in Hd.
  destruct (cache_miss (ns, err)).
  - destruct (SaveNotes_tables w1 now userID
                (fetchUserNotes (database w1) userID)) as (Hn & Hu & _).
    destruct (SaveNotes _ _ _ _) as [e w2]. simpl in *.
    rewrite Hn, Hu, Hd. auto.
  - simpl. rewrite Hd. auto.
Qed.

(** A list request is read-only and repeatable.  [getNotes] changes neither
    the users nor the notes table, and a second list request of the same
    user that follows it (at any time, with any token of his that is
    accepted) gets the same reply. *)
Theorem getNotes_again :
  forall (env : Env) (w : World) (now now' : Time) (req req' : Request)
         (userID : Z),
    getUserIDFromToken env now (Authorization req) = inr userID ->
    getUserIDFromToken env now' (Authorization req') = inr userID ->
    fst (getNotes env (snd (getNotes env w now req)) now' req')
    = fst (getNotes env w now req)
    /\ users (database (snd (getNotes env w now req))) = users (database w)
    /\ notes (database (snd (getNotes env w now req))) = notes (database w).
Proof.
  intros env w now now' req req' userID Hu Hu'.
  split; [|apply getNotes_tables].
  unfold getNotes. rewrite Hu.
  pose proof (LoadNotes_database w userID) as Hd.
  pose proof (LoadNotes_entry w userID) as He.
  destruct (LoadNotes w userID) as [[ns err] w1]. simpl in Hd, He.
  destruct (cache_miss (ns, err)) eqn:Hm.
  - set (ns' := fetchUserNotes (database w1) userID).
    destruct (SaveNotes_tables w1 now userID ns') as (Hn & _ & Hc).
    destruct (SaveNotes w1 now userID ns') as [e w2].
    cbn [fst snd] in Hn, Hc |- *. rewrite Hu'.
    rewrite (LoadNotes_hit w2 userID ns')
      by (rewrite Hc; apply lookup_insert_eq).
    destruct (cache_miss (ns', None)) eqn:Hm'; [|reflexivity].
    assert (Hsame : fetchUserNotes (database w2) userID = ns')
      by (unfold fetchUserNotes; rewrite Hn; reflexivity).
    rewrite Hsame. destruct (SaveNotes w2 now' userID ns'). reflexivity.
  - cbn [fst snd]. rewrite Hu'.
    destruct err as [e|]; [discriminate|].
    rewrite (LoadNotes_hit w1 userID ns) by (apply He; reflexivity).
    rewrite Hm. reflexivity.
Qed.

(** [alice] lists at 1002 and again an hour later. *)
Lemma getNotes_again_alice :
  fst (getNotes env_both
         (snd (getNotes env_both world_created 1002
                 (mkRequest (alice_bearer env_both) "" None)))
         4602 (mkRequest (alice_bearer env_both) "" None))
  = fst (getNotes env_both world_created 1002
           (mkRequest (alice_bearer env_both) "" None))
  /\ users (database (snd (getNotes env_both world_created 1002
                             (mkRequest (alice_bearer env_both) "" None))))
     = users (database world_created)
  /\ notes (database (snd (getNotes env_both world_created 1002
                             (mkRequest (alice_bearer env_both) "" None))))
     = notes (database world_created).
Proof.
  apply (getNotes_again env_both world_created 1002 4602
           (mkRequest (alice_bearer env_both) "" None)
           (mkRequest (alice_bearer env_both) "" None) 1);
    reflexivity.
Defined.

(** ** Deleting *)

Lemma owned_visible (noteID userID : Z) (n : Note.t) :
  Gorm.visible (fun n => (Note.ID n =? noteID) && (Note.UserID n =? userID)) n
  = true
  <-> Note.ID n = noteID /\ Note.UserID n = userID /\ Note.DeletedAt n = None.
Proof.
  unfold Gorm.visible. simpl.
  rewrite !andb_true_iff, !Z.eqb_eq.
  destruct (Note.DeletedAt n); simpl; split.
  - intros [_ H]; discriminate.
  - intros (_ & _ & H); discriminate.
  - intros [[H1 H2] _]; auto.
  - intros (H1 & H2 & _); auto.
Qed.

(** The result of [deleteNote] for a note that passes the check. *)
Lemma deleteNote_found (env : Env) (w : World) (now : Time) (req : Request)
    (noteID userID : Z) (old : Note.t) :
  ParseUint32 (param_id req) = Some noteID ->
  noteID <> 0 ->
  getUserIDFromToken env now (Authorization req) = inr userID ->
  findOwned (database w) noteID userID = inr old ->
  deleteNote env w now req
  = (mkReply StatusNoContent NoContent,
     mkWorld
       (with_notes
          (map (fun r => if (Note.ID r =? noteID)
                            && Gorm.is_null (Note.DeletedAt r)
                         then Note.set_UpdatedAt now
                                (Note.set_DeletedAt (Some now) old)
                         else r)
               (notes (database w)))
          (database w))
       ∅).
Proof.
  intros Hp Hnz Hu Hf. unfold deleteNote. rewrite Hp, Hu, Hf.
  apply First_inr in Hf. destruct Hf as [Hin Hvis].
  apply owned_visible in Hvis. destruct Hvis as (Hid & _ & Hd).
  rewrite (Save_Note_update now _ (notes (database w)) old);
    simpl; auto; [|lia].
  rewrite Hid. reflexivity.
Qed.

Lemma deleteNote_absent (env : Env) (w : World) (now : Time) (req : Request)
    (noteID userID : Z) :
  ParseUint32 (param_id req) = Some noteID ->
  getUserIDFromToken env now (Authorization req) = inr userID ->
  (forall n, In n (notes (database w)) -> Note.ID n = noteID ->
             Note.DeletedAt n <> None) ->
  deleteNote env w now req
  = (mkReply StatusNotFound (Text "Note not found"), w).
Proof.
  intros Hp Hu Hall. unfold deleteNote. rewrite Hp, Hu.
  destruct (findOwned (database w) noteID userID) as [e|n] eqn:Hf.
  - apply findOwned_inl in Hf. destruct Hf as [-> _]. reflexivity.
  - exfalso. unfold findOwned in Hf. apply First_inr in Hf.
    destruct Hf as [Hin Hvis]. apply owned_visible in Hvis.
    destruct Hvis as (Hid & _ & Hd). exact (Hall n Hin Hid Hd).
Qed.

(** A note is deleted once.  After a delete answered 204, a delete of the
    same id is answered 404 "Note not found" and changes nothing, whoever
    asks for it and whenever. *)
Theorem deleteNote_twice_is_not_found :
  forall (env : Env) (w : World) (now now' : Time) (req req' : Request)
         (noteID userID other : Z),
    ParseUint32 (param_id req) = Some noteID ->
    noteID <> 0 ->
    getUserIDFromToken env now (Authorization req) = inr userID ->
    status (fst (deleteNote env w now req)) = StatusNoContent ->
    ParseUint32 (param_id req') = Some noteID ->
    getUserIDFromToken env now' (Authorization req') = inr other ->
    deleteNote env (snd (deleteNote env w now req)) now' req'
    = (mkReply StatusNotFound (Text "Note not found"),
       snd (deleteNote env w now req)).
Proof.
  intros env w now now' req req' noteID userID other Hp Hnz Hu Hok Hp' Hu'.
  destruct (findOwned (database w) noteID userID) as [e|old] eqn:Hf.
  - exfalso. revert Hok. unfold deleteNote. rewrite Hp, Hu, Hf.
    destruct e; discriminate.
  - rewrite (deleteNote_found env w now req noteID userID old Hp Hnz Hu Hf).
    cbn [snd].
    apply (deleteNote_absent env _ now' req' noteID other Hp' Hu').
    simpl. intros n Hin Hid Hd.
    apply in_map_iff in Hin. destruct Hin as (r & Hr & _).
    destruct ((Note.ID r =? noteID) && Gorm.is_null (Note.DeletedAt r)) eqn:E.
    + subst n. discriminate Hd.
    + subst n. rewrite Hid, Z.eqb_refl, Hd in E. discriminate.
Qed.

(** [alice] deletes her note at 1003 and asks again at 1004. *)
Lemma deleteNote_twice_is_not_found_alice :
  deleteNote env_both
    (snd (deleteNote env_both world_listed 1003
            (mkRequest (alice_bearer env_both) "1" None)))
    1004 (mkRequest (alice_bearer env_both) "1" None)
  = (mkReply StatusNotFound (Text "Note not found"),
     snd (deleteNote env_both world_listed 1003
            (mkRequest (alice_bearer env_both) "1" None))).
Proof.
  apply (deleteNote_twice_is_not_found env_both world_listed 1003 1004
           (mkRequest (alice_bearer env_both) "1" None)
           (mkRequest (alice_bearer env_both) "1" None) 1 1 1);
    first [reflexivity | lia | vm_compute; reflexivity].
Defined.

(** What [deleteNote] leaves alone.  In a notes table with distinct,
    non-zero keys, a delete request changes at most the note that has the
    id of the path and belongs to the caller: the users, the number of
    rows, and every other note (the notes of other users among them) stay
    as they were. *)
Theorem deleteNote_keeps_other_notes :
  forall (env : Env) (w : World) (now : Time) (req : Request)
         (noteID userID : Z),
    List.NoDup (map Note.ID (notes (database w))) ->
    (forall n, In n (notes (database w)) -> Note.ID n <> 0) ->
    ParseUint32 (param_id req) = Some noteID ->
    getUserIDFromToken env now (Authorization req) = inr userID ->
    let mine n := (Note.ID n =? noteID) && (Note.UserID n =? userID) in
    let w' := snd (deleteNote env w now req) in
    users (database w') = users (database w)
    /\ length (notes (database w')) = length (notes (database w))
    /\ List.filter (fun n => negb (mine n)) (notes (database w'))
       = List.filter (fun n => negb (mine n)) (notes (database w)).
Proof.
  intros env w now req noteID userID Hnd Hkeys Hp Hu mine w'. subst w'.
  destruct (findOwned (database w) noteID userID) as [e|old] eqn:Hf.
  - unfold deleteNote. rewrite Hp, Hu, Hf. destruct e; simpl; auto.
  - pose proof Hf as Hf0. unfold findOwned in Hf0. apply First_inr in Hf0.
    destruct Hf0 as [Hin Hvis]. apply owned_visible in Hvis.
    destruct Hvis as (Hid & Hown & Hd).
    assert (Hnz : noteID <> 0) by (rewrite <- Hid; apply Hkeys, Hin).
    rewrite (deleteNote_found env w now req noteID userID old Hp Hnz Hu Hf).
    simpl. split; [reflexivity|]. split; [apply length_map|].
    apply filter_map_kept. intros r Hr.
    destruct ((Note.ID r =? noteID) && Gorm.is_null (Note.DeletedAt r)) eqn:E;
      [right|left; reflexivity].
    apply andb_prop in E. destruct E as [E _]. apply Z.eqb_eq in E.
    assert (r = old)
      by (apply (NoDup_map_eq Note.ID _ r old Hnd Hr Hin); congruence).
    subst r. subst mine. simpl.
    rewrite Hid, Hown, !Z.eqb_refl. auto.
Qed.

(** [alice] deletes her note 1 in [world_two_owners]; the note of [bob]
    stays. *)
Lemma deleteNote_keeps_other_notes_bob :
  let w' := snd (deleteNote env_both world_two_owners 1006
                   (mkRequest (alice_bearer env_both) "1" None)) in
  users (database w') = users (database world_two_owners)
  /\ length (notes (database w')) = length (notes (database world_two_owners))
  /\ List.filter (fun n => negb ((Note.ID n =? 1) && (Note.UserID n =? 1)))
                 (notes (database w'))
     = List.filter (fun n => negb ((Note.ID n =? 1) && (Note.UserID n =? 1)))
                   (notes (database world_two_owners)).
Proof.
  apply (deleteNote_keeps_other_notes env_both world_two_owners 1006
           (mkRequest (alice_bearer env_both) "1" None) 1 1).
  - vm_compute. repeat constructor; simpl; intuition discriminate.
  - intros n Hin. vm_compute in Hin.
    destruct Hin as [<-|[<-|[]]]; discriminate.
  - reflexivity.
  - reflexivity.
Defined.

(** ** Expiry, and [/me] *)



(** A token is good for 24 hours and no longer.  From 24 hours after it
    was issued (at a time not before 1970), a token of [generateToken] is
    refused by [getUserIDFromToken] and by [AuthMiddleware], whatever the
    keys, the header form and the database. *)
Theorem expired_token_is_refused :
  forall (env : Env) (w : World) (now now' : Time) (user : User.t) (b : bool),
    0 <= now ->
    now + day <= now' ->
    getUserIDFromToken env now' (HToken b (generateToken env now user))
    = inl ErrInvalidToken
    /\ AuthMiddleware env w now' (HToken b (generateToken env now user))
       = Respond (mkReply StatusUnauthorized (ErrorJSON "Invalid token")).
Proof.
  intros env w now now' user b Hpos Hexp.
  assert (Hun : Jwt.unexpired now' (Jwt.Claims (generateToken env now user))
                = false).
  { unfold Jwt.unexpired. simpl. apply orb_false_iff. split.
    - apply Z.eqb_neq. unfold day. lia.
    - apply Z.ltb_ge. exact Hexp. }
  split.
  - unfold getUserIDFromToken, Jwt.Valid. rewrite Hun, andb_false_r.
    reflexivity.
  - unfold AuthMiddleware. destruct b; [reflexivity|].
    unfold Jwt.Valid. rewrite Hun, andb_false_r. reflexivity.
Qed.

(** The token of [alice], issued at 1000, at 1000 + 24h. *)
Lemma expired_token_is_refused_alice :
  getUserIDFromToken env_both (1000 + day) (alice_bearer env_both)
  = inl ErrInvalidToken
  /\ AuthMiddleware env_both world_alice (1000 + day) (alice_bearer env_both)
     = Respond (mkReply StatusUnauthorized (ErrorJSON "Invalid token")).
Proof.
  apply (expired_token_is_refused env_both world_alice 1000 (1000 + day)
           alice true); lia.
Defined.






(** ** Validation of users *)

Lemma required_string_true (s : string) :
  Validator.required_string s = true <-> s <> "".
Proof.
  unfold Validator.required_string. rewrite negb_true_iff.
  split.
  - intros H ->. discriminate.
  - intros H. apply String.eqb_neq. exact H.
Qed.

Lemma first_failure_nil (field : string) (checks : list (string * bool)) :
  first_failure field checks = [] <-> forall c, In c checks -> snd c = true.
Proof.
  unfold first_failure.
  destruct (List.find _ checks) as [[tag b]|] eqn:E; split.
  - discriminate.
  - intros Hall. apply find_some in E. destruct E as [Hin Hb].
    rewrite (Hall _ Hin) in Hb. discriminate.
  - intros _ c Hin.
    pose proof (find_none _ _ E c Hin) as Hn. simpl in Hn.
    destruct (snd c); [reflexivity|discriminate].
  - reflexivity.
Qed.

(** What an accepted user satisfies. *)
Lemma ValidateUser_Valid (isEmail : string -> bool) (u : User.t) :
  ValidateUser isEmail u = Valid ->
  3 <= RuneCountInString (User.Username u) <= 32
  /\ 8 <= RuneCountInString (User.Password u)
  /\ User.FirstName u <> ""
  /\ User.LastName u <> ""
  /\ User.Email u <> ""
  /\ isEmail (User.Email u) = true
  /\ User.DateOfBirth u = zero_time.
Proof.
  unfold ValidateUser, IsZero.
  destruct (User.DateOfBirth u =? zero_time) eqn:Ed; simpl; [|discriminate].
  apply Z.eqb_eq in Ed. intros Hv.
  match type of Hv with
  | match ?l with [] => _ | _ :: _ => _ end = _ =>
      destruct l as [|e errs] eqn:Herrs; [|discriminate]
  end.
  apply app_eq_nil in Herrs. destruct Herrs as [H1 Herrs].
  apply app_eq_nil in Herrs. destruct Herrs as [H2 Herrs].
  apply app_eq_nil in Herrs. destruct Herrs as [H3 Herrs].
  apply app_eq_nil in Herrs. destruct Herrs as [H4 H5].
  rewrite first_failure_nil in H1, H2, H3, H4, H5.
  pose proof (H1 ("min", _) (or_intror (or_introl eq_refl))) as A1.
  pose proof (H1 ("max", _)
                 (or_intror (or_intror (or_introl eq_refl)))) as A2.
  pose proof (H2 ("min", _) (or_intror (or_introl eq_refl))) as A3.
  pose proof (H3 ("required", _) (or_introl eq_refl)) as A4.
  pose proof (H4 ("required", _) (or_introl eq_refl)) as A5.
  pose proof (H5 ("required", _) (or_introl eq_refl)) as A6.
  pose proof (H5 ("email", _) (or_intror (or_introl eq_refl))) as A7.
  simpl in A1, A2, A3, A4, A5, A6, A7.
  apply Z.leb_le in A1, A2, A3.
  apply required_string_true in A4, A5, A6.
  repeat split; auto.
Qed.


(** ** Registration, then login *)

Lemma fill_User_DeletedAt (now : Time) (rows : list User.t) (u : User.t) :
  User.DeletedAt (Gorm.fill now rows u) = User.DeletedAt u.
Proof.
  unfold Gorm.fill. simpl.
  destruct (IsZero (User.CreatedAt u)); simpl;
    match goal with |- context [IsZero ?x] => destruct (IsZero x) end; simpl;
    match goal with |- context [?a =? 0] => destruct (a =? 0) end;
    reflexivity.
Qed.

(** What a registration answered 201 has done. *)
Lemma Register_created (isEmail : string -> bool)
    (hash : string -> option string) (w w' : World) (now : Time)
    (user : User.t) (reply : Reply) :
  Register isEmail hash w now (Some user) = Replied reply w' ->
  status reply = StatusCreated ->
  exists h stored,
    ValidateUser isEmail user = Valid
    /\ hash (User.Password user) = Some h
    /\ stored = Gorm.fill now (users (database w)) (User.set_Password h user)
    /\ reply = mkReply StatusCreated (UserJSON stored)
    /\ w' = mkWorld (with_users (users (database w) ++ [stored]) (database w))
                    (notesCache w)
    /\ forall r, In r (users (database w)) ->
                 Gorm.visible
                   (fun r => String.eqb (User.Username r) (User.Username user))
                   r = false.
Proof.
  unfold Register.
  destruct (ValidateUser isEmail user) eqn:Hv;
    [|intros Heq; inversion Heq; subst; discriminate|discriminate].
  destruct (Gorm.First _ (users (database w))) as [e|r] eqn:Hf;
    [|intros Heq; inversion Heq; subst; discriminate].
  apply First_inl in Hf. destruct Hf as [-> Hall].
  destruct (hash (User.Password user)) as [h|] eqn:Hh;
    [|intros Heq; inversion Heq; subst; discriminate].
  unfold Gorm.Create.
  destruct (existsb _ _);
    [intros Heq; inversion Heq; subst; discriminate|].
  intros Heq _. inversion Heq; subst.
  exists h, (Gorm.fill now (users (database w)) (User.set_Password h user)).
  repeat split; auto.
Qed.

Lemma Login_after_Register (isEmail : string -> bool)
    (hash : string -> option string) (compare : string -> string -> bool)
    (env : Env) (w w' : World) (now now' : Time) (user loginData : User.t)
    (reply : Reply) :
  (forall p h, hash p = Some h -> compare h p = true) ->
  Register isEmail hash w now (Some user) = Replied reply w' ->
  status reply = StatusCreated ->
  User.DeletedAt user = None ->
  User.Username loginData = User.Username user ->
  User.Password loginData = User.Password user ->
  exists stored,
    reply = mkReply StatusCreated (UserJSON stored)
    /\ In stored (users (database w'))
    /\ User.Username stored = User.Username user
    /\ ValidateUser isEmail user = Valid
    /\ Login compare env w' now' (Some loginData)
       = mkReply StatusOK (TokenJSON (generateToken env now' stored)).
Proof.
  intros Hbcrypt Hreg Hok Hd Hname Hpass.
  destruct (Register_created isEmail hash w w' now user reply Hreg Hok)
    as (h & stored & Hv & Hh & Hst & -> & -> & Hall).
  destruct (fill_User now (users (database w)) (User.set_Password h user))
    as (_ & Hfn & _ & Hfp).
  pose proof (fill_User_DeletedAt now (users (database w))
                (User.set_Password h user)) as Hfd.
  rewrite <- Hst in Hfn, Hfp, Hfd. simpl in Hfn, Hfp, Hfd.
  exists stored. split; [reflexivity|]. split; [|split; [exact Hfn|]].
  { simpl. apply in_or_app. right. left. reflexivity. }
  split; [exact Hv|].
  unfold Login. simpl. rewrite Hname.
  rewrite (First_appended _ (users (database w)) stored Hall).
  - rewrite Hfp, Hpass, (Hbcrypt _ _ Hh). reflexivity.
  - unfold Gorm.visible. simpl. rewrite Hfn, Hfd, Hd, String.eqb_refl.
    reflexivity.
Qed.


Lemma sample_bcrypt (p h : string) :
  sample_hash p = Some h -> sample_compare h p = true.
Proof.
  unfold sample_hash, sample_compare. intros Heq. inversion Heq.
  apply String.eqb_refl.
Qed.


(** ** The path parameter *)

Lemma digits_Some (s : string) (acc v : Z) :
  0 <= acc ->
  digits s acc = Some v ->
  acc <= v /\ forall c, In c (list_ascii_of_string s) -> decimal_digit c.
Proof.
  revert acc v. induction s as [|c s IH]; simpl; intros acc v Hacc Hd.
  - inversion Hd; subst. split; [lia|]. intros c [].
  - destruct ((0 <=? Z.of_nat (Ascii.nat_of_ascii c) - 48)
              && (Z.of_nat (Ascii.nat_of_ascii c) - 48 <=? 9)) eqn:E;
      [|discriminate].
    apply andb_prop in E. destruct E as [E1 E2].
    apply Z.leb_le in E1, E2.
    assert (H0 : 0 <= 10 * acc + (Z.of_nat (Ascii.nat_of_ascii c) - 48))
      by lia.
    destruct (IH _ _ H0 Hd) as [Hle Hall]. split; [lia|].
    intros c' [<-|Hin]; [unfold decimal_digit; lia|auto].
Qed.

Lemma digits_None (s : string) (acc : Z) (c : Ascii.ascii) :
  In c (list_ascii_of_string s) -> ~ decimal_digit c -> digits s acc = None.
Proof.
  revert acc. induction s as [|x s IH]; simpl; intros acc Hin Hnd;
    [destruct Hin|].
  destruct ((0 <=? Z.of_nat (Ascii.nat_of_ascii x) - 48)
            && (Z.of_nat (Ascii.nat_of_ascii x) - 48 <=? 9)) eqn:E;
    [|reflexivity].
  apply andb_prop in E. destruct E as [E1 E2]. apply Z.leb_le in E1, E2.
  destruct Hin as [<-|Hin]; [|apply IH; auto].
  exfalso. apply Hnd. unfold decimal_digit. lia.
Qed.

Lemma digits_total (s : string) (acc : Z) :
  0 <= acc ->
  (forall c, In c (list_ascii_of_string s) -> decimal_digit c) ->
  exists v, digits s acc = Some v
            /\ v < (acc + 1) * 10 ^ Z.of_nat (String.length s).
Proof.
  revert acc. induction s as [|c s IH]; intros acc Hacc Hall.
  - exists acc. split; [reflexivity|]. simpl. lia.
  - cbn [digits]. assert (Hc : decimal_digit c) by (apply Hall; left; auto).
    unfold decimal_digit in Hc.
    assert (E : (0 <=? Z.of_nat (Ascii.nat_of_ascii c) - 48)
                && (Z.of_nat (Ascii.nat_of_ascii c) - 48 <=? 9) = true).
    { apply andb_true_intro. split; apply Z.leb_le; lia. }
    rewrite E.
    assert (H0 : 0 <= 10 * acc + (Z.of_nat (Ascii.nat_of_ascii c) - 48))
      by lia.
    destruct (IH _ H0) as (v & Hv & Hlt).
    { intros c' Hin. apply Hall. right. exact Hin. }
    exists v. split; [exact Hv|].
    cbn [String.length]. rewrite Nat2Z.inj_succ, Z.pow_succ_r by lia.
    assert (0 < 10 ^ Z.of_nat (String.length s))
      by (apply Z.pow_pos_nonneg; lia).
    nia.
Qed.

(** The id of the path.  [ParseUint32] returns a number only for a
    non-empty string of the characters 0 to 9, and the number is below
    2^32; every such string of at most nine characters is read.  An id
    that is empty or holds another character (a sign, a space, a letter, a
    point) is answered 400 "Invalid note ID" by [updateNote] and
    [deleteNote], before body and token are looked at and with no change
    of state. *)
Theorem ParseUint32_reads_decimal_digits :
  forall (s : string),
    (forall v, ParseUint32 s = Some v ->
       0 <= v < 2 ^ 32 /\ s <> ""
       /\ forall c, In c (list_ascii_of_string s) -> decimal_digit c)
    /\ (s <> "" ->
        (forall c, In c (list_ascii_of_string s) -> decimal_digit c) ->
        (String.length s <= 9)%nat ->
        exists v, ParseUint32 s = Some v)
    /\ forall (env : Env) (w : World) (now : Time) (req : Request),
         param_id req = s ->
         (s = "" \/ exists c, In c (list_ascii_of_string s)
                              /\ ~ decimal_digit c) ->
         updateNote env w now req
         = (mkReply StatusBadRequest (Text "Invalid note ID"), w)
         /\ deleteNote env w now req
            = (mkReply StatusBadRequest (Text "Invalid note ID"), w).
Proof.
  intros s. split; [|split].
  - intros v. unfold ParseUint32. destruct s as [|c s]; [discriminate|].
    destruct (digits (String c s) 0) as [v'|] eqn:Hd; [|discriminate].
    destruct (v' <? 2 ^ 32) eqn:Hlt; [|discriminate].
    intros Heq; inversion Heq; subst.
    apply Z.ltb_lt in Hlt.
    destruct (digits_Some _ 0 _ (Z.le_refl 0) Hd) as [Hle Hall].
    split; [lia|]. split; [discriminate|exact Hall].
  - intros Hne Hall Hlen. unfold ParseUint32.
    destruct s as [|c s]; [contradiction|].
    destruct (digits_total (String c s) 0 (Z.le_refl 0) Hall)
      as (v & Hv & Hlt).
    rewrite Hv. exists v.
    assert (Hb : v < 2 ^ 32).
    { assert (10 ^ Z.of_nat (String.length (String c s)) <= 10 ^ 9)
        by (apply Z.pow_le_mono_r; lia).
      lia. }
    apply Z.ltb_lt in Hb. rewrite Hb. reflexivity.
  - intros env w now req Hs Hbad.
    assert (Hp : ParseUint32 (param_id req) = None).
    { rewrite Hs. destruct Hbad as [->|(c & Hin & Hnd)]; [reflexivity|].
      unfold ParseUint32. destruct s as [|x s]; [reflexivity|].
      rewrite (digits_None _ 0 c Hin Hnd). reflexivity. }
    unfold updateNote, deleteNote. rewrite Hp. split; reflexivity.
Qed.

(** ** The routes *)




(** Registration and login through the routes.  A registration the route
    answers 201 has passed both validations, so the login of the same
    username and password passes [ValidateLogin] and is answered 200 with
    a token for the stored user. *)
Theorem registered_through_the_routes_can_log_in :
  forall (isEmail : string -> bool) (hash : string -> option string)
         (compare : string -> string -> bool) (env : Env) (w w' : World)
         (now now' : Time) (user as_user : User.t) (reply : Reply),
    (forall p h, hash p = Some h -> compare h p = true) ->
    route_register isEmail hash w now (Some user) = Replied reply w' ->
    status reply = StatusCreated ->
    User.DeletedAt user = None ->
    User.Username as_user = User.Username user ->
    User.Password as_user = User.Password user ->
    exists stored,
      reply = mkReply StatusCreated (UserJSON stored)
      /\ In stored (users (database w'))
      /\ route_login compare env w' now'
           (Some (mkLoginData (User.Username user) (User.Password user)))
           (Some as_user)
         = Replied (mkReply StatusOK
                      (TokenJSON (generateToken env now' stored))) w'.
Proof.
  intros isEmail hash compare env w w' now now' user as_user reply
         Hbcrypt Hreg Hok Hd Hname Hpass.
  assert (Hreg' : Register isEmail hash w now (Some user) = Replied reply w').
  { revert Hreg. unfold route_register, Handlers.ValidateUser.
    destruct (ValidateUser isEmail user); [auto| |discriminate].
    intros Heq; inversion Heq; subst. discriminate Hok. }
  destruct (Login_after_Register isEmail hash compare env w w' now now' user
              as_user reply Hbcrypt Hreg' Hok Hd Hname Hpass)
    as (stored & Hr & Hin & _ & Hv & Hlogin).
  exists stored. split; [exact Hr|]. split; [exact Hin|].
  destruct (ValidateUser_Valid isEmail user Hv) as (Hn & Hp & _).
  assert (Hun : User.Username user <> "")
    by (intros E; rewrite E in Hn; simpl in Hn; lia).
  assert (Hpn : User.Password user <> "")
    by (intros E; rewrite E in Hp; simpl in Hp; lia).
  apply required_string_true in Hun, Hpn.
  unfold route_login, Handlers.ValidateLogin, first_failure.
  cbn -[Login]. rewrite Hun, Hpn. cbn -[Login]. rewrite Hlogin. reflexivity.
Qed.

(** [bob] through [POST /register] and [POST /login]. *)
Lemma registered_through_the_routes_can_log_in_bob :
  exists stored,
    mkReply StatusCreated (UserJSON bob_registered)
    = mkReply StatusCreated (UserJSON stored)
    /\ In stored (users (database world_bob_registered))
    /\ route_login sample_compare env_both world_bob_registered 2100
         (Some (mkLoginData "bob" "password123"))
         (Some (credentials "bob" "password123"))
       = Replied (mkReply StatusOK
                    (TokenJSON (generateToken env_both 2100 stored)))
                 world_bob_registered.
Proof.
  apply (registered_through_the_routes_can_log_in sample_isEmail sample_hash
           sample_compare env_both world_alice world_bob_registered 2000 2100
           (candidate "bob" "b@x.com") (credentials "bob" "password123")
           (mkReply StatusCreated (UserJSON bob_registered)));
    first [exact sample_bcrypt | vm_compute; reflexivity].
Defined.

(** ** The query helpers *)

(** The list of a user is his share of the active notes:
    [fetchUserNotes] returns the notes of [db.LoadNotes] that are his, in
    the same order. *)
Theorem fetchUserNotes_is_the_share_of_LoadNotes :
  forall (db : DB) (userID : Z),
    fetchUserNotes db userID
    = List.filter (fun n => Note.UserID n =? userID) (fst (Db.LoadNotes db)).
Proof.
  intros db userID. unfold fetchUserNotes, Db.LoadNotes, Gorm.Find. simpl.
  rewrite filter_filter. apply filter_ext. intros n.
  unfold Gorm.visible. simpl.
  destruct (Note.UserID n =? userID), (Gorm.is_null (Note.DeletedAt n));
    reflexivity.
Qed.

Lemma NoteExists_findOwned (db : DB) (noteID userID : Z) :
  Db.NoteExists db noteID userID
  = (match findOwned db noteID userID with
     | inr _ => true
     | inl _ => false
     end, None).
Proof.
  unfold Db.NoteExists, findOwned, Gorm.Count, Gorm.First. f_equal.
  rewrite (filter_ext
             (Gorm.visible
                (fun n => (Note.ID n =? noteID) && (Note.UserID n =? userID)
                          && Gorm.is_null (Note.DeletedAt n)))
             (Gorm.visible
                (fun n => (Note.ID n =? noteID)
                          && (Note.UserID n =? userID)))).
  - destruct (List.filter _ (notes db)) as [|x l] eqn:E; [reflexivity|].
    destruct (Gorm.least (x :: l)) eqn:El.
    + apply Z.ltb_lt. simpl length. lia.
    + apply least_None in El. discriminate.
  - intros n. unfold Gorm.visible. simpl.
    destruct (Gorm.is_null (Note.DeletedAt n));
      rewrite ?andb_true_r, ?andb_false_r; reflexivity.
Qed.

(** [NoteExists] is the check of the handlers: it answers [true], without
    an error, exactly when the lookup of [updateNote] and [deleteNote]
    finds a note, that is when the caller has an active note with the
    id. *)
Theorem NoteExists_is_the_check_of_the_handlers :
  forall (db : DB) (noteID userID : Z),
    Db.NoteExists db noteID userID
    = (match findOwned db noteID userID with
       | inr _ => true
       | inl _ => false
       end, None)
    /\ (fst (Db.NoteExists db noteID userID) = true
        <-> active_owned db noteID userID).
Proof.
  intros db noteID userID.
  split; [apply NoteExists_findOwned|]. rewrite NoteExists_findOwned. simpl.
  destruct (findOwned db noteID userID) as [e|n] eqn:Hf.
  - apply findOwned_inl in Hf. destruct Hf as [_ Hno].
    split; [discriminate|contradiction].
  - apply findOwned_inr in Hf. tauto.
Qed.

(** [SoftDeleteNoteInDB] takes no owner.  It reports no error, also when
    no note has the id; afterwards [NoteExists] is false for the id and
    every user, the active notes are those of before without the id, and
    no row is removed. *)
Theorem SoftDeleteNoteInDB_removes_the_id_for_everyone :
  forall (db : DB) (now : Time) (noteID : Z),
    let db' := snd (Db.SoftDeleteNoteInDB db now noteID) in
    fst (Db.SoftDeleteNoteInDB db now noteID) = None
    /\ (forall userID, Db.NoteExists db' noteID userID = (false, None))
    /\ fst (Db.LoadNotes db')
       = List.filter (fun n => negb (Note.ID n =? noteID))
                     (fst (Db.LoadNotes db))
    /\ users db' = users db
    /\ length (notes db') = length (notes db).
Proof.
  intros db now noteID db'. subst db'. unfold Db.SoftDeleteNoteInDB. simpl.
  split; [reflexivity|]. split; [|split; [|split]].
  - intros userID. unfold Db.NoteExists, Gorm.Count. simpl.
    rewrite filter_none; [reflexivity|].
    intros r Hin. unfold Gorm.Update in Hin. apply in_map_iff in Hin.
    destruct Hin as (x & Hx & _). unfold Gorm.visible in *. simpl in *.
    destruct ((Note.ID x =? noteID) && Gorm.is_null (Note.DeletedAt x)) eqn:E.
    + subst r. simpl. rewrite !andb_false_r. reflexivity.
    + subst r. apply not_true_is_false. intros Hv.
      rewrite !andb_true_iff in Hv. destruct Hv as [[[Hid _] _] Hd].
      rewrite Hid, Hd in E. discriminate.
  - unfold Db.LoadNotes, Gorm.Find, Gorm.Update. simpl.
    rewrite filter_filter.
    induction (notes db) as [|x l IH]; simpl; [reflexivity|].
    rewrite <- IH. unfold Gorm.visible. simpl.
    destruct (Note.ID x =? noteID) eqn:Ei;
      destruct (Note.DeletedAt x) as [t|] eqn:Ed; simpl;
      rewrite ?Ed; simpl; reflexivity.
  - reflexivity.
  - unfold Gorm.Update. apply length_map.
Qed.

Lemma fill_User_stamps (now : Time) (rows : list User.t) (u : User.t) :
  User.CreatedAt u = now -> User.UpdatedAt u = now ->
  User.CreatedAt (Gorm.fill now rows u) = now
  /\ User.UpdatedAt (Gorm.fill now rows u) = now.
Proof.
  intros Hc Hu. unfold Gorm.fill. simpl.
  destruct (IsZero (User.CreatedAt u)); simpl;
    match goal with |- context [IsZero ?x] => destruct (IsZero x) end; simpl;
    match goal with |- context [?a =? 0] => destruct (a =? 0) end;
    simpl; auto.
Qed.

(** Insert, then look up.  After an [InsertNewUser] that returned no error
    (for a user without a soft-delete stamp), the stored row is the last
    of the table and carries the current time in both stamps;
    [GetUserByUsername] returns it, [GetUserID] its key,
    [CheckExistingUser] answers [true], and [GetUserByID] of its key
    returns it. *)
Theorem InsertNewUser_then_lookup :
  forall (db : DB) (now : Time) (user : User.t),
    fst (Db.InsertNewUser db now user) = None ->
    User.DeletedAt user = None ->
    let db' := snd (Db.InsertNewUser db now user) in
    exists stored,
      users db' = users db ++ [stored]
      /\ Db.GetUserByUsername db' (User.Username user) = (stored, None)
      /\ Db.GetUserID db' (User.Username user) = (User.ID stored, None)
      /\ Db.CheckExistingUser db' (User.Username user) = (true, None)
      /\ Db.GetUserByID db' (User.ID stored) = (stored, None)
      /\ User.CreatedAt stored = now
      /\ User.UpdatedAt stored = now
      /\ User.Username stored = User.Username user
      /\ User.Password stored = User.Password user
      /\ User.Email stored = User.Email user.
Proof.
  intros db now user Hok Hd db'. subst db'. revert Hok.
  unfold Db.InsertNewUser.
  set (u := User.set_UpdatedAt now (User.set_CreatedAt now user)).
  destruct (Gorm.Create now u (users db)) as [e|[stored rows]] eqn:Hc;
    [discriminate|].
  intros _. simpl.
  apply Create_inr in Hc. destruct Hc as (Hst & -> & Hfresh).
  destruct (fill_User now (users db) u) as (_ & Hfn & Hfe & Hfp).
  pose proof (fill_User_DeletedAt now (users db) u) as Hfd.
  destruct (fill_User_stamps now (users db) u eq_refl eq_refl) as [Hca Hua].
  rewrite <- Hst in Hfn, Hfe, Hfp, Hfd, Hca, Hua.
  simpl in Hfn, Hfe, Hfp, Hfd.
  assert (Hname : forall r, In r (users db) ->
            Gorm.visible
              (fun r => String.eqb (User.Username r) (User.Username user)) r
            = false).
  { intros r Hin. destruct (Hfresh r Hin) as [_ Hcl]. simpl in Hcl.
    apply orb_false_elim in Hcl. destruct Hcl as [Hcl _].
    unfold Gorm.visible. simpl. rewrite <- Hfn, Hcl. reflexivity. }
  assert (Hvn : Gorm.visible
                  (fun r => String.eqb (User.Username r) (User.Username user))
                  stored = true).
  { unfold Gorm.visible. simpl.
    rewrite Hfn, Hfd, Hd, String.eqb_refl. reflexivity. }
  exists stored. split; [reflexivity|].
  unfold Db.GetUserByUsername, Db.GetUserID, Db.CheckExistingUser,
    Db.GetUserByID, Gorm.Count. simpl.
  rewrite (First_appended _ (users db) stored Hname Hvn).
  rewrite List.filter_app, (filter_none _ _ Hname). simpl. rewrite Hvn.
  rewrite (First_appended _ (users db) stored).
  - repeat split; auto.
  - intros r Hin. destruct (Hfresh r Hin) as [Hpk _]. simpl in Hpk.
    unfold Gorm.visible. simpl.
    apply Z.eqb_neq in Hpk. rewrite Hpk. reflexivity.
  - unfold Gorm.visible. simpl. rewrite Z.eqb_refl, Hfd, Hd. reflexivity.
Qed.

(** [bob] is inserted at 2000 next to [alice]. *)
Lemma InsertNewUser_then_lookup_bob :
  let db' := snd (Db.InsertNewUser (database world_alice) 2000
                    (candidate "bob" "b@x.com")) in
  exists stored,
    users db' = users (database world_alice) ++ [stored]
    /\ Db.GetUserByUsername db' "bob" = (stored, None)
    /\ Db.GetUserID db' "bob" = (User.ID stored, None)
    /\ Db.CheckExistingUser db' "bob" = (true, None)
    /\ Db.GetUserByID db' (User.ID stored) = (stored, None)
    /\ User.CreatedAt stored = 2000
    /\ User.UpdatedAt stored = 2000
    /\ User.Username stored = "bob"
    /\ User.Password stored = "password123"
    /\ User.Email stored = "b@x.com".
Proof.
  apply (InsertNewUser_then_lookup (database world_alice) 2000
           (candidate "bob" "b@x.com")); reflexivity.
Defined.

Lemma fill_Note (now : Time) (rows : list Note.t) (n : Note.t) :
  Note.UserID (Gorm.fill now rows n) = Note.UserID n
  /\ Note.Title (Gorm.fill now rows n) = Note.Title n
  /\ Note.Body (Gorm.fill now rows n) = Note.Body n
  /\ Note.DeletedAt (Gorm.fill now rows n) = Note.DeletedAt n
  /\ (Note.CreatedAt n = zero_time ->
      Note.CreatedAt (Gorm.fill now rows n) = now)
  /\ (Note.UpdatedAt n = zero_time ->
      Note.UpdatedAt (Gorm.fill now rows n) = now).
Proof.
  unfold Gorm.fill, IsZero. simpl.
  destruct (Note.CreatedAt n =? zero_time) eqn:Ec; simpl;
    match goal with
    | |- context [?x =? zero_time] => destruct (x =? zero_time) eqn:Eu
    end; simpl;
    match goal with |- context [?a =? 0] => destruct (a =? 0) eqn:Ei end;
    simpl; repeat split; auto;
    try (intros Hz; rewrite Hz in *; discriminate).
Qed.

(** Insert, then ask.  After a successful [InsertNote] of a note without
    a soft-delete stamp, [NoteExists] answers [true] for the key of the
    stored note and its owner, the note is among the active notes and in
    the list of its owner, title and body are those given, stamps that
    were zero hold the current time, and the rows that were there are
    still there, under other keys. *)
Theorem InsertNote_then_NoteExists :
  forall (db db' : DB) (now : Time) (note stored : Note.t),
    Db.InsertNote db now note = inr (stored, db') ->
    Note.DeletedAt note = None ->
    Db.NoteExists db' (Note.ID stored) (Note.UserID note) = (true, None)
    /\ In stored (fst (Db.LoadNotes db'))
    /\ In stored (fetchUserNotes db' (Note.UserID note))
    /\ Note.Title stored = Note.Title note
    /\ Note.Body stored = Note.Body note
    /\ (Note.CreatedAt note = zero_time -> Note.CreatedAt stored = now)
    /\ (Note.UpdatedAt note = zero_time -> Note.UpdatedAt stored = now)
    /\ forall n, In n (notes db) ->
         In n (notes db') /\ Note.ID n <> Note.ID stored.
Proof.
  intros db db' now note stored. unfold Db.InsertNote.
  destruct (Gorm.Create now note (notes db)) as [e|[v rows]] eqn:Hc;
    [discriminate|].
  intros Heq Hd. inversion Heq; subst. clear Heq.
  apply Create_inr in Hc. destruct Hc as (Hst & -> & Hfresh).
  destruct (fill_Note now (notes db) note)
    as (Hu & Ht & Hb & Hdel & Hca & Hua).
  rewrite <- Hst in Hu, Ht, Hb, Hdel, Hca, Hua.
  assert (Hin : In stored (notes (with_notes (notes db ++ [stored]) db)))
    by (simpl; apply in_or_app; right; left; reflexivity).
  assert (Hact : active_owned (with_notes (notes db ++ [stored]) db)
                   (Note.ID stored) (Note.UserID note)).
  { exists stored. repeat split; auto. congruence. }
  split; [|split; [|split]].
  - rewrite NoteExists_findOwned.
    destruct (findOwned _ _ _) as [e|n] eqn:Hf; [|reflexivity].
    apply findOwned_inl in Hf. destruct Hf as [_ Hno]. contradiction.
  - unfold Db.LoadNotes, Gorm.Find. simpl. apply filter_In.
    split; [apply in_or_app; right; left; reflexivity|].
    unfold Gorm.visible. simpl. rewrite Hdel, Hd. reflexivity.
  - apply In_fetchUserNotes. repeat split; auto. congruence.
  - split; [exact Ht|]. split; [exact Hb|]. split; [exact Hca|].
    split; [exact Hua|]. intros n Hn. split.
    + simpl. apply in_or_app. left. exact Hn.
    + destruct (Hfresh n Hn) as [Hpk _]. exact Hpk.
Qed.

(** A second note of [alice] is inserted at 1010. *)
Lemma InsertNote_then_NoteExists_alice :
  let stored := Note.mk 2 1010 1010 1 "second" "note" None in
  let db' := mkDB [alice] [note_T; stored] [] in
  Db.NoteExists db' 2 1 = (true, None)
  /\ In stored (fst (Db.LoadNotes db'))
  /\ In stored (fetchUserNotes db' 1)
  /\ Note.Title stored = "second"
  /\ Note.Body stored = "note"
  /\ (zero_time = zero_time -> Note.CreatedAt stored = 1010)
  /\ (zero_time = zero_time -> Note.UpdatedAt stored = 1010)
  /\ forall n, In n (notes (database world_created)) ->
       In n (notes db') /\ Note.ID n <> 2.
Proof.
  apply (InsertNote_then_NoteExists (database world_created)
           (mkDB [alice] [note_T; Note.mk 2 1010 1010 1 "second" "note" None]
                 [])
           1010 (owner_title_body 1 "second" "note")
           (Note.mk 2 1010 1010 1 "second" "note" None));
    reflexivity.
Defined.

(** ** What no note request does *)

Lemma fill_Cache (now : Time) (rows : list Cache.t) (c : Cache.t) :
  Cache.UserID (Gorm.fill now rows c) = Cache.UserID c
  /\ Cache.DeletedAt (Gorm.fill now rows c) = Cache.DeletedAt c
  /\ Cache.Notes (Gorm.fill now rows c) = Cache.Notes c.
Proof.
  unfold Gorm.fill. simpl.
  destruct (IsZero (Cache.CreatedAt c)); simpl;
    match goal with |- context [IsZero ?x] => destruct (IsZero x) end; simpl;
    match goal with |- context [?a =? 0] => destruct (a =? 0) end;
    simpl; auto.
Qed.

(** The rows of the cache table after a [Create] or a [Save]: each is a
    row that was there, or has the user and the notes of the saved value. *)
Lemma Create_Cache_rows (now : Time) (v v' : Cache.t)
    (rows rows' : list Cache.t) :
  Gorm.Create now v rows = inr (v', rows') ->
  forall r, In r rows' ->
    In r rows \/ (Cache.UserID r = Cache.UserID v
                  /\ Cache.Notes r = Cache.Notes v).
Proof.
  intros Hc r Hr. apply Create_inr in Hc. destruct Hc as (-> & -> & _).
  apply in_app_or in Hr. destruct Hr as [Hr|[<-|[]]]; [left; exact Hr|right].
  destruct (fill_Cache now rows v) as (Hu & _ & Hn). auto.
Qed.

Lemma Save_Cache_rows (now : Time) (v v' : Cache.t)
    (rows rows' : list Cache.t) :
  Gorm.Save now v rows = inr (v', rows') ->
  forall r, In r rows' ->
    In r rows \/ (Cache.UserID r = Cache.UserID v
                  /\ Cache.Notes r = Cache.Notes v).
Proof.
  unfold Gorm.Save.
  destruct (Gorm.pk v =? 0); [apply Create_Cache_rows|].
  destruct (existsb _ rows).
  - intros Heq r Hr. inversion Heq; subst. apply in_map_iff in Hr.
    destruct Hr as (x & Hx & Hin).
    destruct (Gorm.visible _ x); subst r; [right; split; reflexivity|auto].
  - destruct (existsb _ rows).
    + intros Heq r Hr. inversion Heq; subst. apply in_map_iff in Hr.
      destruct Hr as (x & Hx & Hin).
      destruct (Cache.ID x =? Cache.ID v); subst r;
        [right; split; reflexivity|auto].
    + intros Hc r Hr.
      destruct (Create_Cache_rows now _ v' rows rows' Hc r Hr) as [?|[? ?]];
        auto.
Qed.

Lemma SaveNotes_owned (w : World) (now : Time) (userID : Z)
    (ns : list Note.t) :
  cache_owned w ->
  (forall n, In n ns -> Note.UserID n = userID) ->
  cache_owned (snd (SaveNotes w now userID ns)).
Proof.
  intros [Hmap Hrows] Hns.
  assert (Hm : forall u l n,
             <[userID := ns]> (notesCache w) !! u = Some l -> In n l ->
             Note.UserID n = u).
  { intros u l n Hl Hin. destruct (decide (u = userID)) as [->|Hne].
    - rewrite lookup_insert_eq in Hl. inversion Hl; subst. auto.
    - rewrite lookup_insert_ne in Hl by congruence. eauto. }
  unfold SaveNotes.
  destruct (Gorm.First _ (caches (database w))) as [e|c] eqn:Hf.
  - apply First_inl in Hf. destruct Hf as [-> _].
    destruct (Gorm.Create _ _ _) as [e|[v' rows']] eqn:Hc; simpl;
      [split; [exact Hm|exact Hrows]|].
    split; [exact Hm|]. simpl. intros c n Hc' Hn.
    destruct (Create_Cache_rows _ _ _ _ _ Hc c Hc') as [Hold|[Hu Hno]].
    + eauto.
    + simpl in Hu, Hno. rewrite Hno in Hn. rewrite Hu. auto.
  - apply First_inr in Hf. destruct Hf as [_ Hvis].
    apply user_row_visible in Hvis. destruct Hvis as [Hu _].
    destruct (Gorm.Save _ _ _) as [e|[v' rows']] eqn:Hs; simpl;
      [split; [exact Hm|exact Hrows]|].
    split; [exact Hm|]. simpl. intros c' n Hc' Hn.
    destruct (Save_Cache_rows _ _ _ _ _ Hs c' Hc') as [Hold|[Hu' Hno]].
    + eauto.
    + simpl in Hu', Hno. rewrite Hno in Hn. rewrite Hu', Hu. auto.
Qed.

Lemma LoadNotes_owned (w : World) (userID : Z) :
  cache_owned w ->
  cache_owned (snd (LoadNotes w userID))
  /\ forall n, In n (fst (fst (LoadNotes w userID))) ->
               Note.UserID n = userID.
Proof.
  intros [Hmap Hrows]. unfold LoadNotes.
  destruct (notesCache w !! userID) as [ns|] eqn:E; simpl.
  - split; [split; assumption|]. intros n Hn. eauto.
  - destruct (Gorm.First _ _) as [e|c] eqn:Hf; simpl.
    + split; [split; assumption|]. intros n [].
    + apply First_inr in Hf. destruct Hf as [Hin Hvis].
      apply user_row_visible in Hvis. destruct Hvis as [Hu _].
      assert (Hc : forall n, In n (Cache.Notes c) -> Note.UserID n = userID)
        by (intros n Hn; rewrite <- Hu; eauto).
      split; [|exact Hc]. split; [|exact Hrows]. simpl.
      intros u l n Hl Hn. destruct (decide (u = userID)) as [->|Hne].
      * rewrite lookup_insert_eq in Hl. inversion Hl; subst. auto.
      * rewrite lookup_insert_ne in Hl by congruence. eauto.
Qed.

(** A state with an empty map is [cache_owned] when its rows are; so is
    every state in which nothing is cached yet. *)
Lemma cache_owned_cleared (db : DB) (notes' : list Note.t) :
  (forall c n, In c (caches db) -> In n (Cache.Notes c) ->
               Note.UserID n = Cache.UserID c) ->
  cache_owned (mkWorld (with_notes notes' db) ∅).
Proof.
  intros Hrows. split; simpl; [|exact Hrows].
  intros u ns n Hl. rewrite lookup_empty in Hl. discriminate.
Qed.

Lemma cache_owned_fresh (db : DB) :
  caches db = [] -> cache_owned (mkWorld db ∅).
Proof.
  intros He. split; simpl.
  - intros u ns n Hl. rewrite lookup_empty in Hl. discriminate.
  - rewrite He. intros c n [].
Qed.

Lemma getNotes_owned (env : Env) (w : World) (now : Time) (req : Request) :
  cache_owned w ->
  cache_owned (snd (getNotes env w now req))
  /\ forall userID ns,
       getUserIDFromToken env now (Authorization req) = inr userID ->
       payload (fst (getNotes env w now req)) = NotesJSON ns ->
       forall n, In n ns -> Note.UserID n = userID.
Proof.
  intros Hw. unfold getNotes.
  destruct (getUserIDFromToken env now (Authorization req)) as [e|userID];
    [split; [exact Hw|discriminate]|].
  destruct (LoadNotes_owned w userID Hw) as [Hw1 Hns].
  destruct (LoadNotes w userID) as [[ns err] w1]. simpl in Hw1, Hns.
  destruct (cache_miss (ns, err)).
  - assert (Hown : forall n, In n (fetchUserNotes (database w1) userID) ->
                             Note.UserID n = userID)
      by (intros n Hn; apply In_fetchUserNotes in Hn; tauto).
    pose proof (SaveNotes_owned w1 now userID _ Hw1 Hown) as Hw2.
    destruct (SaveNotes w1 now userID _) as [e w2]. simpl in Hw2 |- *.
    split; [exact Hw2|].
    intros u l Hu Hl n Hn. inversion Hu; inversion Hl; subst. auto.
  - simpl. split; [exact Hw1|].
    intros u l Hu Hl n Hn. inversion Hu; inversion Hl; subst. auto.
Qed.

(** No list shows the note of another user.  From a state in which every
    cached list holds notes of its user only (as when nothing is cached
    yet), every note request leads to such a state again, and a list
    request answers with notes of the caller only: what the cache serves
    may be out of date, it is never another user's. *)
Theorem notes_of_others_are_never_listed :
  forall (env : Env) (w : World) (now : Time) (method : string)
         (req : Request),
    cache_owned w ->
    cache_owned (snd (NotesHandler env w now method req))
    /\ forall userID ns,
         getUserIDFromToken env now (Authorization req) = inr userID ->
         payload (fst (getNotes env w now req)) = NotesJSON ns ->
         forall n, In n ns -> Note.UserID n = userID.
Proof.
  intros env w now method req Hw.
  split; [|apply getNotes_owned; exact Hw].
  destruct Hw as [Hmap Hrows]. unfold NotesHandler.
  destruct (String.eqb method "GET");
    [apply getNotes_owned; split; assumption|].
  destruct (String.eqb method "POST").
  { unfold createNote.
    destruct (body req) as [note|]; [|split; assumption].
    destruct (negb _); [split; assumption|].
    destruct (getUserIDFromToken _ _ _) as [e|userID]; [split; assumption|].
    destruct (Gorm.Create _ _ _) as [e|[v rows]]; [split; assumption|].
    simpl. apply cache_owned_cleared. exact Hrows. }
  destruct (String.eqb method "PUT").
  { unfold updateNote.
    destruct (ParseUint32 _) as [noteID|]; [|split; assumption].
    destruct (body req) as [note|]; [|split; assumption].
    destruct (negb _); [split; assumption|].
    destruct (getUserIDFromToken _ _ _) as [e|userID]; [split; assumption|].
    destruct (findOwned _ _ _) as [[| |]|old]; try (split; assumption).
    destruct (Gorm.Save _ _ _) as [e|[v rows]]; [split; assumption|].
    simpl. apply cache_owned_cleared. exact Hrows. }
  destruct (String.eqb method "DELETE"); [|split; assumption].
  unfold deleteNote.
  destruct (ParseUint32 _) as [noteID|]; [|split; assumption].
  destruct (getUserIDFromToken _ _ _) as [e|userID]; [split; assumption|].
  destruct (findOwned _ _ _) as [[| |]|old]; try (split; assumption).
  destruct (Gorm.Save _ _ _) as [e|[v rows]]; [split; assumption|].
  simpl. apply cache_owned_cleared. exact Hrows.
Qed.

(** [bob] lists in [world_two_owners], where nothing is cached yet. *)
Lemma notes_of_others_are_never_listed_bob :
  cache_owned (snd (NotesHandler env_both world_two_owners 1007 "GET"
                      (mkRequest (bob_bearer env_both) "" None)))
  /\ forall userID ns,
       getUserIDFromToken env_both 1007 (bob_bearer env_both) = inr userID ->
       payload (fst (getNotes env_both world_two_owners 1007
                       (mkRequest (bob_bearer env_both) "" None)))
       = NotesJSON ns ->
       forall n, In n ns -> Note.UserID n = userID.
Proof.
  apply (notes_of_others_are_never_listed env_both world_two_owners 1007
           "GET" (mkRequest (bob_bearer env_both) "" None)).
  apply (cache_owned_fresh (database world_two_owners)). reflexivity.
Defined.

(** The keys of the notes table after a [Create] or a [Save]: those of
    before, in place, and behind them the key of an inserted row. *)
Lemma Create_Note_ids (now : Time) (v v' : Note.t)
    (rows rows' : list Note.t) :
  Gorm.Create now v rows = inr (v', rows') ->
  exists more, map Note.ID rows' = map Note.ID rows ++ more.
Proof.
  intros Hc. apply Create_inr in Hc. destruct Hc as (_ & -> & _).
  exists [Note.ID v']. apply map_app.
Qed.

Lemma Save_Note_ids (now : Time) (v v' : Note.t)
    (rows rows' : list Note.t) :
  Gorm.Save now v rows = inr (v', rows') ->
  exists more, map Note.ID rows' = map Note.ID rows ++ more.
Proof.
  unfold Gorm.Save.
  destruct (Gorm.pk v =? 0); [apply Create_Note_ids|].
  destruct (existsb _ rows).
  - intros Heq. inversion Heq; subst. exists []. rewrite app_nil_r.
    rewrite map_map. apply map_ext. intros r.
    unfold Gorm.visible. simpl.
    destruct (Note.ID r =? Note.ID v) eqn:E; simpl; [|reflexivity].
    apply Z.eqb_eq in E.
    destruct (Gorm.is_null (Note.DeletedAt r)); simpl; auto.
  - destruct (existsb _ rows).
    + intros Heq. inversion Heq; subst. exists []. rewrite app_nil_r.
      rewrite map_map. apply map_ext. intros r. simpl.
      destruct (Note.ID r =? Note.ID v) eqn:E; simpl; [|reflexivity].
      apply Z.eqb_eq in E. auto.
    + apply Create_Note_ids.
Qed.

(** No note request removes a row.  Whatever the method, the request and
    the state, the notes table afterwards has the keys of before, in the
    same places, and at most new keys behind them: notes are inserted and
    rewritten, never deleted from the table. *)
Theorem note_rows_are_never_removed :
  forall (env : Env) (w : World) (now : Time) (method : string)
         (req : Request),
    exists more,
      map Note.ID (notes (database (snd (NotesHandler env w now method req))))
      = map Note.ID (notes (database w)) ++ more.
Proof.
  intros env w now method req.
  assert (Hsame : exists more : list Z,
             map Note.ID (notes (database w))
             = map Note.ID (notes (database w)) ++ more)
    by (exists []; rewrite app_nil_r; reflexivity).
  unfold NotesHandler.
  destruct (String.eqb method "GET").
  { destruct (getNotes_tables env w now req) as [_ ->]. exact Hsame. }
  destruct (String.eqb method "POST").
  { unfold createNote.
    destruct (body req) as [note|]; [|exact Hsame].
    destruct (negb _); [exact Hsame|].
    destruct (getUserIDFromToken _ _ _) as [e|userID]; [exact Hsame|].
    destruct (Gorm.Create _ _ _) as [e|[v rows]] eqn:Hc; [exact Hsame|].
    simpl. exact (Create_Note_ids _ _ _ _ _ Hc). }
  destruct (String.eqb method "PUT").
  { unfold updateNote.
    destruct (ParseUint32 _) as [noteID|]; [|exact Hsame].
    destruct (body req) as [note|]; [|exact Hsame].
    destruct (negb _); [exact Hsame|].
    destruct (getUserIDFromToken _ _ _) as [e|userID]; [exact Hsame|].
    destruct (findOwned _ _ _) as [[| |]|old]; try exact Hsame.
    destruct (Gorm.Save _ _ _) as [e|[v rows]] eqn:Hs; [exact Hsame|].
    simpl. exact (Save_Note_ids _ _ _ _ _ Hs). }
  destruct (String.eqb method "DELETE"); [|exact Hsame].
  unfold deleteNote.
  destruct (ParseUint32 _) as [noteID|]; [|exact Hsame].
  destruct (getUserIDFromToken _ _ _) as [e|userID]; [exact Hsame|].
  destruct (findOwned _ _ _) as [[| |]|old]; try exact Hsame.
  destruct (Gorm.Save _ _ _) as [e|[v rows]] eqn:Hs; [exact Hsame|].
  simpl. exact (Save_Note_ids _ _ _ _ _ Hs).
Qed.

(** ** Who gets a token *)

(** [Login] answers 200 only on a match: the users table then holds an
    active user with the username of the request whose stored hash the
    comparison accepts for the password of the request, and the token is
    the one issued for that user at that time. *)
Theorem Login_issues_a_token_only_on_a_match :
  forall (compare : string -> string -> bool) (env : Env) (w : World)
         (now : Time) (req : option User.t),
    status (Login compare env w now req) = StatusOK ->
    exists loginData user,
      req = Some loginData
      /\ In user (users (database w))
      /\ User.DeletedAt user = None
      /\ User.Username user = User.Username loginData
      /\ compare (User.Password user) (User.Password loginData) = true
      /\ Login compare env w now req
         = mkReply StatusOK (TokenJSON (generateToken env now user)).
Proof.
  intros compare env w now req. unfold Login.
  destruct req as [loginData|]; [|discriminate].
  destruct (Gorm.First _ _) as [[| |]|user] eqn:Hf; try discriminate.
  destruct (compare (User.Password user) (User.Password loginData)) eqn:Hc;
    [|discriminate].
  intros _. exists loginData, user.
  apply First_inr in Hf. destruct Hf as [Hin Hvis].
  unfold Gorm.visible in Hvis. simpl in Hvis.
  apply andb_prop in Hvis. destruct Hvis as [Hn Hd].
  apply String.eqb_eq in Hn.
  repeat split; auto.
  destruct (User.DeletedAt user); [discriminate|reflexivity].
Qed.

(** [alice] logs in with her password. *)
Lemma Login_issues_a_token_only_on_a_match_alice :
  exists loginData user,
    Some (credentials "alice" "password123") = Some loginData
    /\ In user (users (database world_alice))
    /\ User.DeletedAt user = None
    /\ User.Username user = User.Username loginData
    /\ sample_compare (User.Password user) (User.Password loginData) = true
    /\ Login sample_compare env_both world_alice 3000
         (Some (credentials "alice" "password123"))
       = mkReply StatusOK (TokenJSON (generateToken env_both 3000 user)).
Proof.
  apply (Login_issues_a_token_only_on_a_match sample_compare env_both
           world_alice 3000 (Some (credentials "alice" "password123"))).
  reflexivity.
Defined.
